(** * cheroot.cli: bind-address and application resolution

    A shallow embedding of [cheroot/cli.py]: the [BindLocation] class and
    its [bind_addr] property, [parse_wsgi_bind_addr], the [Application] and
    [Gateway] handles with their keyword builders, and the [_arg_spec]
    option table.

    Python exceptions are carried by the [result] monad; a [dict] (and the
    [__dict__] behind [vars]) is a [gmap string pyobj]. *)

From Stdlib Require Import ZArith String Ascii List Bool Lia.
From stdpp Require Import base option strings gmap fin_maps.

Local Open Scope string_scope.
Local Open Scope Z_scope.

(** ** Exceptions and the error monad *)

Inductive exn_class :=
| TypeError | ValueError | ImportError | AttributeError | OSError | SystemExit.

#[global] Instance exn_class_eq_dec : EqDecision exn_class.
Proof. solve_decision. Defined.

Inductive result (A : Type) : Type :=
| Ok (a : A)
| Raise (cls : exn_class) (msg : string).
Arguments Ok {A} a.
Arguments Raise {A} cls msg.

#[global] Instance result_ret : MRet result := fun _ a => Ok a.
#[global] Instance result_bind : MBind result := fun _ _ f m =>
  match m with
  | Ok a => f a
  | Raise c msg => Raise c msg
  end.

(** A block that may leave the enclosing function early: [Some v] is
    [return v] inside the block, [None] is falling off its end. *)
Definition block (A : Type) : Type := result (option A).

(** [try: body / except cls: pass], and equally
    [with contextlib.suppress(cls): body]: an exception of class [cls] ends
    the block and execution continues after it; any other one propagates. *)
Definition suppress {A} (cls : exn_class) (body : block A) : block A :=
  match body with
  | Ok r => Ok r
  | Raise c msg => if bool_decide (c = cls) then Ok None else Raise c msg
  end.

(** ** Strings *)

Definition NUL : ascii := Ascii.ascii_of_nat 0.

Fixpoint str_all (p : ascii -> bool) (s : string) : bool :=
  match s with
  | EmptyString => true
  | String a s' => p a && str_all p s'
  end.

(** [c in s] *)
Fixpoint str_mem (c : ascii) (s : string) : bool :=
  match s with
  | EmptyString => false
  | String a s' => Ascii.eqb a c || str_mem c s'
  end.

Definition str_nonempty (s : string) : bool :=
  match s with EmptyString => false | String _ _ => true end.

(** [s[n:]] *)
Fixpoint str_drop (n : nat) (s : string) : string :=
  match n, s with
  | O, _ => s
  | S n', String _ s' => str_drop n' s'
  | S _, EmptyString => EmptyString
  end.

(** [s.startswith(pre)] *)
Definition startswith (pre s : string) : bool := String.prefix pre s.

(** [s.partition(c)] for a one-character separator: the part before the
    first [c], the separator, the part after it; [(s, '', '')] when [c]
    does not occur. *)
Fixpoint partition (c : ascii) (s : string) : string * string * string :=
  match s with
  | EmptyString => (EmptyString, EmptyString, EmptyString)
  | String a s' =>
      if Ascii.eqb a c then (EmptyString, String c EmptyString, s')
      else let '(h, sep, t) := partition c s' in (String a h, sep, t)
  end.

(** [s.rpartition(c)]: split at the last [c]; [('', '', s)] when [c] does
    not occur. *)
Fixpoint rpartition (c : ascii) (s : string) : string * string * string :=
  match s with
  | EmptyString => (EmptyString, EmptyString, EmptyString)
  | String a s' =>
      let '(h, sep, t) := rpartition c s' in
      if str_nonempty sep then (String a h, sep, t)
      else if Ascii.eqb a c then (EmptyString, String c EmptyString, s')
      else (EmptyString, EmptyString, String a t)
  end.

Definition is_upper (a : ascii) : bool :=
  let n := nat_of_ascii a in (65 <=? n)%nat && (n <=? 90)%nat.

Definition is_lower (a : ascii) : bool :=
  let n := nat_of_ascii a in (97 <=? n)%nat && (n <=? 122)%nat.

Definition is_digit (a : ascii) : bool :=
  let n := nat_of_ascii a in (48 <=? n)%nat && (n <=? 57)%nat.

Definition lower_ascii (a : ascii) : ascii :=
  if is_upper a then ascii_of_nat (nat_of_ascii a + 32) else a.

(** [s.lower()] on ASCII text. *)
Fixpoint lower (s : string) : string :=
  match s with
  | EmptyString => EmptyString
  | String a s' => String (lower_ascii a) (lower s')
  end.

(** [int(s)] for a string of ASCII digits, most significant first. *)
Fixpoint int_digits (acc : Z) (s : string) : Z :=
  match s with
  | EmptyString => acc
  | String a s' => int_digits (10 * acc + (Z.of_nat (nat_of_ascii a) - 48)) s'
  end.

(** [sys.int_info.default_max_str_digits]: [int] refuses, with
    [ValueError], a decimal text of more digits (leading zeros count). *)
Definition max_str_digits : Z := 4300.

Definition within_str_digits (digits : string) : bool :=
  Z.of_nat (String.length digits) <=? max_str_digits.

(** ** Python values *)

(** The bind location (a plain data class): four optional fields. *)
Record BindLocation := mkBindLocation {
  address : option string;
  port : option Z;
  file_socket : option string;
  abstract_socket : option string;
}.

(** [BindLocation(...)] with the keyword defaults of [__init__]. *)
Definition BindLocation_network (addr : option string) (p : option Z) :=
  mkBindLocation addr p None None.
Definition BindLocation_file (path : string) :=
  mkBindLocation None None (Some path) None.
Definition BindLocation_abstract (name : string) :=
  mkBindLocation None None None (Some name).

(** The objects this module handles.  A class carries the names of the
    classes in its method resolution order; an instance records whether its
    class defines [__call__]. *)
#[warnings="-register-all"]
Inductive pyobj :=
| PyNone
| PyInt (n : Z)
| PyStr (s : string)
| PyTuple (items : list pyobj)
| PyFunction (qualname : string)
| PyClass (qualname : string) (mro : list string)
| PyInstance (cls : string) (has_call : bool)
| PyBindLocation (b : BindLocation)
| PyApplication (wsgi_app : pyobj)
| PyGateway (gateway : pyobj).

(** Truth value of an object, as [or] and [and] test it. *)
Definition truthy (v : pyobj) : bool :=
  match v with
  | PyNone => false
  | PyInt n => negb (n =? 0)
  | PyStr s => str_nonempty s
  | PyTuple items => match items with [] => false | _ => true end
  | _ => true
  end.

(** [x or y] and [x and y] return one of their operands. *)
Definition py_or (x y : pyobj) : pyobj := if truthy x then x else y.
Definition py_and (x y : pyobj) : pyobj := if truthy x then y else x.

(** [v is None] *)
Definition is_none (v : pyobj) : bool :=
  match v with PyNone => true | _ => false end.

Definition of_opt_str (o : option string) : pyobj :=
  match o with Some s => PyStr s | None => PyNone end.
Definition of_opt_int (o : option Z) : pyobj :=
  match o with Some n => PyInt n | None => PyNone end.

(** ** BindLocation.bind_addr *)

Definition _bind_addr (self : BindLocation) : pyobj :=
  if is_none (of_opt_str (address self)) || is_none (of_opt_int (port self))
  then PyNone
  else PyTuple [of_opt_str (address self); of_opt_int (port self)].

(** ['\0{}'.format(name)] *)
Definition format_nul (name : pyobj) : pyobj :=
  match name with
  | PyStr s => PyStr (String NUL s)
  | _ => PyStr (String NUL "None")
  end.

Definition _abstract_socket (self : BindLocation) : pyobj :=
  py_and (of_opt_str (abstract_socket self))
         (format_nul (of_opt_str (abstract_socket self))).

Definition bind_addr (self : BindLocation) : pyobj :=
  py_or (py_or (_bind_addr self) (of_opt_str (file_socket self)))
        (_abstract_socket self).

(** ** urllib.parse, as far as [parse_wsgi_bind_addr] reads it

    [urlparse], [hostname] and [port] belong to Python's standard library,
    not to this package.  They are transcribed from CPython's
    [Lib/urllib/parse.py] for ASCII text; only the [netloc] component is
    modelled because it is the only one [hostname] and [port] read.  Left
    out of [urlparse]: the removal of TAB, CR and LF from the url, the
    check that the text between square brackets is an IPv6 or IPvFuture
    address, and the NFKC check of an authority that is not ASCII.  The
    two checks raise further [ValueError]s, so the model of [urlparse]
    returns on some texts on which the library raises; the statements
    below that say [parse_wsgi_bind_addr] returns are about texts without
    square brackets, TAB, CR, LF or bytes outside ASCII in the authority,
    or are stated on the outcome of the parse. *)
Module urllib.

Record ParseResult := mkParseResult { netloc : string }.

Definition is_netloc_delim (a : ascii) : bool :=
  Ascii.eqb a "/" || Ascii.eqb a "?" || Ascii.eqb a "#".

(** The text up to the first of [/], [?], [#]. *)
Fixpoint take_netloc (s : string) : string :=
  match s with
  | EmptyString => EmptyString
  | String a s' =>
      if is_netloc_delim a then EmptyString else String a (take_netloc s')
  end.

(** [_splitnetloc(url, start)[0]] *)
Definition _splitnetloc (url : string) (start : nat) : string :=
  take_netloc (str_drop start url).

(** [urlsplit]: a url that starts with [//] has no scheme (the text
    before its first [:] contains [/], which is no scheme character);
    its authority is cut out and rejected when exactly one of the two
    square brackets occurs in it. *)
Definition urlparse (url : string) : result ParseResult :=
  if startswith "//" url then
    let netloc := _splitnetloc url 2 in
    if (str_mem "[" netloc && negb (str_mem "]" netloc))
       || (str_mem "]" netloc && negb (str_mem "[" netloc))
    then Raise ValueError "Invalid IPv6 URL"
    else Ok (mkParseResult netloc)
  else Ok (mkParseResult "").

Definition _hostinfo (self : ParseResult) : string * option string :=
  let '(_, _, hostinfo) := rpartition "@" (netloc self) in
  let '(_, have_open_br, bracketed) := partition "[" hostinfo in
  let '(hostname, port) :=
    if str_nonempty have_open_br then
      let '(hostname, _, port) := partition "]" bracketed in
      let '(_, _, port) := partition ":" port in
      (hostname, port)
    else
      let '(hostname, _, port) := partition ":" hostinfo in
      (hostname, port) in
  (hostname, if str_nonempty port then Some port else None).

(** The [hostname] property: lower-cased, a zone after [%] untouched;
    [None] for an empty host. *)
Definition hostname (self : ParseResult) : option string :=
  let hostname := fst (_hostinfo self) in
  if str_nonempty hostname then
    let '(hostname, percent, zone) := partition "%" hostname in
    Some (lower hostname ++ percent ++ zone)
  else None.

(** The [port] property: [None] without a port; for ASCII digits the
    number [int] gives, when it is in 0..65535; [ValueError] otherwise,
    also the one [int] raises for more than 4300 digits. *)
Definition port (self : ParseResult) : result (option Z) :=
  match snd (_hostinfo self) with
  | None => Ok None
  | Some p =>
      if str_all is_digit p then
        if within_str_digits p then
          let n := int_digits 0 p in
          if (0 <=? n) && (n <=? 65535) then Ok (Some n)
          else Raise ValueError "Port out of range 0-65535"
        else Raise ValueError
               "Exceeds the limit (4300 digits) for integer string conversion"
      else Raise ValueError "Port could not be cast to integer value"
  end.

End urllib.

(** ** parse_wsgi_bind_addr *)

Definition parse_wsgi_bind_addr (bind_addr_string : string)
  : result BindLocation :=
  match_ ← urllib.urlparse ("//" ++ bind_addr_string);
  early ← suppress ValueError (
    let addr := urllib.hostname match_ in
    port ← urllib.port match_;
    if negb (is_none (of_opt_str addr)) || negb (is_none (of_opt_int port))
    then Ok (Some (BindLocation_network addr port))
    else Ok None);
  match early with
  | Some loc => Ok loc
  | None =>
      if startswith "@" bind_addr_string
      then Ok (BindLocation_abstract (str_drop 1 bind_addr_string))
      else Ok (BindLocation_file bind_addr_string)
  end.

(** ** Modules and classification of the loaded attribute *)

(** [importlib.import_module]: the table gives, by dotted name, the
    module an import returns, as the table of its attributes.  Not
    modelled: what importing a module runs, and relative names (a name
    that begins with a dot is a [TypeError] without a package). *)
Definition import_module (sys_modules : gmap string (gmap string pyobj))
    (name : string) : result (gmap string pyobj) :=
  if str_nonempty name then
    match sys_modules !! name with
    | Some m => Ok m
    | None => Raise ImportError ("No module named " ++ name)
    end
  else Raise ValueError "Empty module name".

(** [getattr(module, name)] *)
Definition getattr (m : gmap string pyobj) (name : string) : result pyobj :=
  match m !! name with
  | Some v => Ok v
  | None => Raise AttributeError ("module has no attribute " ++ name)
  end.

Definition server_Gateway : string := "cheroot.server.Gateway".

(** [issubclass(obj, base)]: [TypeError] unless [obj] is a class. *)
Definition issubclass (obj : pyobj) (base : string) : result bool :=
  match obj with
  | PyClass _ mro => Ok (bool_decide (base ∈ mro))
  | _ => Raise TypeError "issubclass() arg 1 must be a class"
  end.

(** [callable(obj)] *)
Definition callable (obj : pyobj) : bool :=
  match obj with
  | PyFunction _ | PyClass _ _ => true
  | PyInstance _ has_call => has_call
  | _ => false
  end.

(** Unpacking an iterable into two targets, [a, b = xs]. *)
Definition unpack2 {A} (xs : list A) : result (A * A) :=
  match xs with
  | [] => Raise ValueError "not enough values to unpack (expected 2, got 0)"
  | [_] => Raise ValueError "not enough values to unpack (expected 2, got 1)"
  | [a; b] => Ok (a, b)
  | _ => Raise ValueError "too many values to unpack (expected 2)"
  end.

(** The 3-tuple [str.partition] returns. *)
Definition tuple3 {A} (t : A * A * A) : list A :=
  let '(a, b, c) := t in [a; b; c].

(** Calling a bound method that takes one argument with the arguments
    [args]. *)
Definition call1 {A B} (name param : string) (f : A -> B) (args : list A)
  : result B :=
  match args with
  | [] => Raise TypeError
            (name ++ "() missing 1 required positional argument: " ++ param)
  | [a] => Ok (f a)
  | _ => Raise TypeError
            (name ++ "() takes 2 positional arguments but more were given")
  end.

(** [argparse.Namespace]: its attributes are the entries of its
    [__dict__]; the class defines no [__getitem__]. *)
Definition Namespace_getattr (ns : gmap string pyobj) (name : string)
  : result pyobj :=
  match ns !! name with
  | Some v => Ok v
  | None => Raise AttributeError
              ("'Namespace' object has no attribute " ++ name)
  end.

Definition Namespace_getitem (ns : gmap string pyobj) (key : string)
  : result pyobj :=
  Raise TypeError "'Namespace' object is not subscriptable".

(** The two server constructors, seen through the keyword set each is
    called with. *)
Inductive server_instance :=
| wsgi_Server (kwargs : gmap string pyobj)
| server_HTTPServer (kwargs : gmap string pyobj).

Module Gateway.

Record t := mk { gateway : pyobj }.

Definition __init__ (gateway_yo : pyobj) : t := mk gateway_yo.

Definition vars (self : t) : gmap string pyobj :=
  {[ "gateway" := gateway self ]}.

Definition server (self : t) (parsed_args : gmap string pyobj)
  : result server_instance :=
  let server_args := vars self in
  bind_addr ← Namespace_getitem parsed_args "bind_addr";
  let server_args := <[ "bind_addr" := bind_addr ]> server_args in
  max ← Namespace_getattr parsed_args "max";
  let server_args :=
    if negb (is_none max) then <[ "maxthreads" := max ]> server_args
    else server_args in
  numthreads ← Namespace_getattr parsed_args "numthreads";
  let server_args :=
    if negb (is_none numthreads)
    then <[ "minthreads" := numthreads ]> server_args
    else server_args in
  Ok (server_HTTPServer server_args).

End Gateway.

Module Application.

Record t := mk { wsgi_app : pyobj }.

Definition __init__ (wsgi_app : pyobj) : result t :=
  if negb (callable wsgi_app) then
    Raise TypeError
      "Application must be a callable object or cheroot.server.Gateway subclass"
  else Ok (mk wsgi_app).

Definition vars (self : t) : gmap string pyobj :=
  {[ "wsgi_app" := wsgi_app self ]}.

(** What [resolve] returns: [Gateway(app)] or [cls(app)]. *)
Inductive handle :=
| IsGateway (g : Gateway.t)
| IsApplication (a : t).

(** The classification at the end of [resolve]: the subclass probe under
    [contextlib.suppress(TypeError)], then [cls(app)]. *)
Definition classify (app : pyobj) : result handle :=
  early ← suppress TypeError (
    is_gateway ← issubclass app server_Gateway;
    if is_gateway : bool then Ok (Some (IsGateway (Gateway.__init__ app)))
    else Ok None);
  match early with
  | Some h => Ok h
  | None => a ← __init__ app; Ok (IsApplication a)
  end.

(** The body of [resolve] once [mod_path] and [app_path] are bound. *)
Definition resolve_from (sys_modules : gmap string (gmap string pyobj))
    (mod_path app_path : string) : result handle :=
  module ← import_module sys_modules mod_path;
  app ← getattr module
          (if str_nonempty app_path then app_path else "application");
  classify app.

Definition resolve (sys_modules : gmap string (gmap string pyobj))
    (full_path : string) : result handle :=
  '(mod_path, app_path) ← unpack2 (tuple3 (partition ":" full_path));
  resolve_from sys_modules mod_path app_path.

Definition server_args (self : t) (parsed_args : gmap string pyobj)
  : gmap string pyobj :=
  let args :=
    filter (λ item : string * pyobj,
              startswith "_" item.1 = false ∧ is_none item.2 = false)
           parsed_args in
  (* args.update(vars(self)) *)
  vars self ∪ args.

Definition server (self : t) (parsed_args : gmap string pyobj)
  : result server_instance :=
  kwargs ← call1 "server_args" "parsed_args" (server_args self) [];
  Ok (wsgi_Server kwargs).

End Application.

(** The object stored in the namespace for a handle. *)
Definition handle_obj (h : Application.handle) : pyobj :=
  match h with
  | Application.IsGateway g => PyGateway (Gateway.gateway g)
  | Application.IsApplication a => PyApplication (Application.wsgi_app a)
  end.

(** [raw_args._wsgi_app.server(raw_args)] *)
Definition handle_server (h : Application.handle)
    (parsed_args : gmap string pyobj) : result server_instance :=
  match h with
  | Application.IsGateway g => Gateway.server g parsed_args
  | Application.IsApplication a => Application.server a parsed_args
  end.

(** ** The option table and its converters *)

(** The process state the converters read and change. *)
Record world := mkWorld {
  cwd : string;
  directories : list string;
  sys_modules : gmap string (gmap string pyobj);
}.

(** [os.chdir(path)]: changes the working directory and returns [None];
    [OSError] when [path] is no directory. *)
Definition os_chdir (path : string) (w : world) : result pyobj * world :=
  if bool_decide (path ∈ directories w)
  then (Ok PyNone, mkWorld path (directories w) (sys_modules w))
  else (Raise OSError ("No such file or directory: " ++ path), w).

(** [int(s)] on an optional sign and at most 4300 ASCII digits.  Not
    modelled: blanks around the number, underscores between digits and
    digits outside ASCII, all of which [int] accepts; here they are a
    [ValueError]. *)
Definition py_int (s : string) : result pyobj :=
  let '(negative, digits) :=
    match s with
    | String "-" d => (true, d)
    | String "+" d => (false, d)
    | _ => (false, s)
    end in
  if str_nonempty digits && str_all is_digit digits then
    if within_str_digits digits then
      let n := int_digits 0 digits in
      Ok (PyInt (if negative : bool then - n else n))
    else Raise ValueError
           "Exceeds the limit (4300 digits) for integer string conversion"
  else Raise ValueError ("invalid literal for int() with base 10: " ++ s).

(** The values of the [type=] entries of [_arg_spec]. *)
Inductive converter :=
| type_Application_resolve
| type_parse_wsgi_bind_addr
| type_os_chdir
| type_str
| type_int.

Record arg_spec := mkArg {
  arg : string;
  dest : option string;
  type : converter;
  default : option string;
}.

Definition _arg_spec : list arg_spec := [
  mkArg "_wsgi_app" None type_Application_resolve None;
  mkArg "--bind" (Some "bind_addr") type_parse_wsgi_bind_addr
        (Some "127.0.0.1:8000");
  mkArg "--chdir" None type_os_chdir None;
  mkArg "--server-name" (Some "server_name") type_str None;
  mkArg "--threads" (Some "numthreads") type_int None;
  mkArg "--max-threads" (Some "max") type_int None;
  mkArg "--timeout" (Some "timeout") type_int None;
  mkArg "--shutdown-timeout" (Some "shutdown_timeout") type_int None;
  mkArg "--request-queue-size" (Some "request_queue_size") type_int None;
  mkArg "--accepted-queue-size" (Some "accepted_queue_size") type_int None;
  mkArg "--accepted-queue-timeout" (Some "accepted_queue_timeout")
        type_int None
].

(** Running a converter on the raw text of an argument. *)
Definition run_converter (c : converter) (raw : string) (w : world)
  : result pyobj * world :=
  match c with
  | type_Application_resolve =>
      (h ← Application.resolve (sys_modules w) raw; Ok (handle_obj h), w)
  | type_parse_wsgi_bind_addr =>
      (loc ← parse_wsgi_bind_addr raw; Ok (PyBindLocation loc), w)
  | type_os_chdir => os_chdir raw w
  | type_str => (Ok (PyStr raw), w)
  | type_int => (py_int raw, w)
  end.

(** [s.lstrip('-')] and [s.replace('-', '_')] *)
Fixpoint lstrip_dash (s : string) : string :=
  match s with
  | String a s' => if Ascii.eqb a "-" then lstrip_dash s' else s
  | EmptyString => EmptyString
  end.

Fixpoint replace_dash (s : string) : string :=
  match s with
  | String a s' =>
      String (if Ascii.eqb a "-" then "_"%char else a) (replace_dash s')
  | EmptyString => EmptyString
  end.

(** The namespace key argparse stores an argument under: the given
    [dest], else the name of a positional as it is, else the option
    string without its dashes and with inner dashes as underscores. *)
Definition argparse_dest (e : arg_spec) : string :=
  match dest e with
  | Some d => d
  | None =>
      if startswith "-" (arg e) then replace_dash (lstrip_dash (arg e))
      else arg e
  end.

(** The namespace before any argument is read: every key at its default
    ([None] when the table gives none).  The text default of [--bind] stays
    in place until the option is met or, failing that, until argparse
    converts it after the last item. *)
Definition initial_namespace : gmap string pyobj :=
  list_to_map
    (map (λ e, (argparse_dest e, of_opt_str (default e))) _arg_spec).

Definition find_arg (name : string) : option arg_spec :=
  find (λ e, String.eqb (arg e) name) _arg_spec.

(** argparse reads the command line left to right; each item is the name
    of the argument it belongs to and its raw text.  The converter runs as
    the item is met and its value is stored under the argument's key.  A
    [TypeError] or [ValueError] of a converter becomes a usage error
    (exit status 2); any other exception propagates. *)
Fixpoint parse_items (argv : list (string * string))
    (ns : gmap string pyobj) (w : world)
  : result (gmap string pyobj) * world :=
  match argv with
  | [] => (Ok ns, w)
  | (name, raw) :: rest =>
      match find_arg name with
      | None => (Raise SystemExit ("unrecognized arguments: " ++ name), w)
      | Some e =>
          match run_converter (type e) raw w with
          | (Ok v, w') => parse_items rest (<[ argparse_dest e := v ]> ns) w'
          | (Raise cls msg, w') =>
              if bool_decide (cls = TypeError) || bool_decide (cls = ValueError)
              then (Raise SystemExit ("invalid value: " ++ raw), w')
              else (Raise cls msg, w')
          end
      end
  end.

(** ** Vocabulary of the statements *)

(** [needle in hay] *)
Fixpoint contains (needle hay : string) : bool :=
  String.prefix needle hay ||
  match hay with
  | EmptyString => false
  | String _ hay' => contains needle hay'
  end.

(** Characters of a host name: letters, digits, hyphen and dot. *)
Definition hostname_char (a : ascii) : bool :=
  is_lower a || is_upper a || is_digit a || Ascii.eqb a "-" || Ascii.eqb a ".".

Definition valid_hostname (host : string) : bool :=
  str_nonempty host && str_all hostname_char host.

(** A port written as a decimal integer. *)
Definition integer_port (p : string) : bool :=
  str_nonempty p && str_all is_digit p.

(** Characters of [host:port] texts. *)
Definition authority_char (a : ascii) : bool :=
  hostname_char a || Ascii.eqb a ":".

Definition is_gateway_subclass (obj : pyobj) : bool :=
  match issubclass obj server_Gateway with
  | Ok true => true
  | _ => false
  end.

Definition is_class (obj : pyobj) : bool :=
  match obj with PyClass _ _ => true | _ => false end.

(** The effective address as the data-model invariant words it: the network
    pair when address and port are both non-null, otherwise the file path
    when non-null, otherwise the abstract name behind a NUL. *)
Inductive effective_address_spec (b : BindLocation) : pyobj -> Prop :=
| effective_network a p :
    address b = Some a -> port b = Some p ->
    effective_address_spec b (PyTuple [PyStr a; PyInt p])
| effective_file f :
    address b = None \/ port b = None ->
    file_socket b = Some f ->
    effective_address_spec b (PyStr f)
| effective_abstract n :
    address b = None \/ port b = None ->
    file_socket b = None ->
    abstract_socket b = Some n ->
    effective_address_spec b (PyStr (String NUL n)).

(** ** main *)

(** Whether an argument occurs among the command-line items. *)
Definition given (name : string) (argv : list (string * string)) : bool :=
  existsb (String.eqb name) (map fst argv).

(** After the last item argparse converts, with the argument's own type,
    a text default of an argument that was not given. *)
Definition convert_default (argv : list (string * string))
    (st : result (gmap string pyobj) * world) (e : arg_spec)
  : result (gmap string pyobj) * world :=
  match st, default e with
  | (Ok ns, w), Some text =>
      if given (arg e) argv then st
      else
        match run_converter (type e) text w with
        | (Ok v, w') => (Ok (<[ argparse_dest e := v ]> ns), w')
        | (Raise cls msg, w') =>
            if bool_decide (cls = TypeError) || bool_decide (cls = ValueError)
            then (Raise SystemExit ("invalid value: " ++ text), w')
            else (Raise cls msg, w')
        end
  | _, _ => st
  end.

(** The namespace argparse fills: the items are read from the initial
    namespace, then the defaults are converted, row by row. *)
Definition read_arguments (argv : list (string * string)) (w : world)
  : result (gmap string pyobj) * world :=
  fold_left (convert_default argv) _arg_spec
            (parse_items argv initial_namespace w).

(** [parser.parse_args()] over the arguments that [main] adds from
    [_arg_spec]: the namespace is filled, and a missing positional is a
    usage error. *)
Definition parse_args (argv : list (string * string)) (w : world)
  : result (gmap string pyobj) * world :=
  let '(r, w') := read_arguments argv w in
  match r with
  | Ok ns =>
      if given "_wsgi_app" argv then (Ok ns, w')
      else (Raise SystemExit
              "the following arguments are required: APP_MODULE", w')
  | Raise cls msg => (Raise cls msg, w')
  end.

(** [obj.server(parsed_args)] on the object stored as [_wsgi_app]. *)
Definition obj_server (obj : pyobj) (parsed_args : gmap string pyobj)
  : result server_instance :=
  match obj with
  | PyApplication app => Application.server (Application.mk app) parsed_args
  | PyGateway gw => Gateway.server (Gateway.mk gw) parsed_args
  | _ => Raise AttributeError "object has no attribute server"
  end.

(** ['' in sys.path or sys.path.insert(0, '')] *)
Definition ensure_cwd_in_path (sys_path : list string) : list string :=
  if bool_decide (EmptyString ∈ sys_path) then sys_path
  else EmptyString :: sys_path.

(** [main]: the outcome is the server on which [safe_start] is called, or
    the exception that ends the process; the working directory and
    [sys.path] are the state it leaves. *)
Definition main (argv : list (string * string)) (w : world)
    (sys_path : list string)
  : result server_instance * world * list string :=
  match parse_args argv w with
  | (Ok raw_args, w') =>
      let sys_path := ensure_cwd_in_path sys_path in
      ((_wsgi_app ← Namespace_getattr raw_args "_wsgi_app";
        obj_server _wsgi_app raw_args),
       w', sys_path)
  | (Raise cls msg, w') => (Raise cls msg, w', sys_path)
  end.

(** ** Further vocabulary *)

(** Exactly one of the two square brackets occurs. *)
Definition unbalanced_brackets (netloc : string) : bool :=
  (str_mem "[" netloc && negb (str_mem "]" netloc))
  || (str_mem "]" netloc && negb (str_mem "[" netloc)).


(** The namespace keys the items of a command line store under. *)
Definition item_dests (argv : list (string * string)) : list string :=
  omap (λ item, argparse_dest <$> find_arg item.1) argv.

(** The object a handle wraps. *)
Definition handle_target (h : Application.handle) : pyobj :=
  match h with
  | Application.IsGateway g => Gateway.gateway g
  | Application.IsApplication a => Application.wsgi_app a
  end.

(** The forms a location built by [parse_wsgi_bind_addr] can have. *)
Inductive resolved_form (s : string) : BindLocation -> Prop :=
| form_network a p :
    a <> None \/ p <> None ->
    resolved_form s (BindLocation_network a p)
| form_abstract :
    startswith "@" s = true ->
    resolved_form s (BindLocation_abstract (str_drop 1 s))
| form_file :
    startswith "@" s = false ->
    resolved_form s (BindLocation_file s).

(** ** Facts about the string operations *)

Section StringFacts.

Lemma str_all_app p s t : str_all p (s ++ t) = str_all p s && str_all p t.
Proof.
  induction s as [|a s IH]; simpl; [reflexivity|].
  rewrite IH. apply andb_assoc.
Qed.

Lemma str_all_impl (p q : ascii -> bool) s :
  (forall a, p a = true -> q a = true) ->
  str_all p s = true -> str_all q s = true.
Proof.
  intros Hpq. induction s as [|a s IH]; simpl; [reflexivity|].
  rewrite !andb_true_iff. intros [Ha Hs]. split; auto.
Qed.

Lemma str_all_not_mem p c s :
  p c = false -> str_all p s = true -> str_mem c s = false.
Proof.
  intros Hc. induction s as [|a s IH]; simpl; [reflexivity|].
  rewrite andb_true_iff. intros [Ha Hs].
  destruct (Ascii.eqb_spec a c) as [->|_]; [congruence|].
  simpl. auto.
Qed.

Lemma partition_absent c s :
  str_mem c s = false -> partition c s = (s, EmptyString, EmptyString).
Proof.
  induction s as [|a s IH]; simpl; [reflexivity|].
  rewrite orb_false_iff. intros [Ha Hs].
  rewrite Ha, (IH Hs). reflexivity.
Qed.

Lemma partition_first c s t :
  str_mem c s = false ->
  partition c (s ++ String c t) = (s, String c EmptyString, t).
Proof.
  induction s as [|a s IH]; simpl.
  - intros _. rewrite Ascii.eqb_refl. reflexivity.
  - rewrite orb_false_iff. intros [Ha Hs].
    rewrite Ha, (IH Hs). reflexivity.
Qed.

Lemma rpartition_absent c s :
  str_mem c s = false -> rpartition c s = (EmptyString, EmptyString, s).
Proof.
  induction s as [|a s IH]; simpl; [reflexivity|].
  rewrite orb_false_iff. intros [Ha Hs].
  rewrite (IH Hs). simpl. rewrite Ha. reflexivity.
Qed.

Lemma take_netloc_all s :
  str_mem "/" s = false -> str_mem "?" s = false -> str_mem "#" s = false ->
  urllib.take_netloc s = s.
Proof.
  induction s as [|a s IH]; simpl; [reflexivity|].
  rewrite !orb_false_iff. intros [H1 S1] [H2 S2] [H3 S3].
  unfold urllib.is_netloc_delim. rewrite H1, H2, H3. simpl.
  f_equal. auto.
Qed.

Lemma is_digit_value a :
  is_digit a = true -> 0 <= Z.of_nat (nat_of_ascii a) - 48 <= 9.
Proof.
  unfold is_digit. rewrite andb_true_iff, !Nat.leb_le. lia.
Qed.

Lemma int_digits_nonneg s : forall acc,
  str_all is_digit s = true -> 0 <= acc -> 0 <= int_digits acc s.
Proof.
  induction s as [|a s IH]; simpl; intros acc; [auto|].
  rewrite andb_true_iff. intros [Ha Hs] Hacc.
  apply IH; [assumption|]. pose proof (is_digit_value a Ha). lia.
Qed.

Lemma str_app_empty_r s : s ++ "" = s.
Proof.
  induction s as [|a s IH]; [reflexivity|].
  change (String a s ++ "") with (String a (s ++ "")). now rewrite IH.
Qed.

Lemma str_nonempty_app_l s t :
  str_nonempty s = true -> str_nonempty (s ++ t) = true.
Proof. destruct s; simpl; [discriminate | reflexivity]. Qed.

End StringFacts.

(** ** The address resolver *)

Section AddressResolver.

Lemma authority_no_delims s c :
  authority_char c = false ->
  str_all authority_char s = true -> str_mem c s = false.
Proof. apply str_all_not_mem. Qed.

(** A text of host-name characters and colons is its own authority. *)
Lemma urlparse_authority s :
  str_all authority_char s = true ->
  urllib.urlparse ("//" ++ s) = Ok (urllib.mkParseResult s).
Proof.
  intros Hs. change ("//" ++ s) with (String "/" (String "/" s)).
  unfold urllib.urlparse, urllib._splitnetloc, startswith. simpl.
  rewrite take_netloc_all by (apply authority_no_delims; [reflexivity | exact Hs]).
  rewrite (authority_no_delims s "["), (authority_no_delims s "]")
    by (reflexivity || exact Hs).
  destruct s; reflexivity.
Qed.

Lemma authority_host_port host p :
  str_all hostname_char host = true -> str_all is_digit p = true ->
  str_all authority_char (host ++ ":" ++ p) = true.
Proof.
  intros Hh Hp. change (host ++ ":" ++ p) with (host ++ String ":" p).
  rewrite str_all_app. cbn [str_all].
  rewrite (str_all_impl hostname_char authority_char host),
    (str_all_impl is_digit authority_char p); auto.
  - intros a Ha. unfold authority_char, hostname_char. rewrite Ha.
    rewrite !orb_true_r. reflexivity.
  - intros a Ha. unfold authority_char. rewrite Ha. reflexivity.
Qed.

Lemma hostinfo_host_port host p :
  str_all hostname_char host = true -> integer_port p = true ->
  urllib._hostinfo (urllib.mkParseResult (host ++ ":" ++ p)) = (host, Some p).
Proof.
  intros Hh Hp. unfold integer_port in Hp. apply andb_true_iff in Hp as [Hne Hp].
  pose proof (authority_host_port host p Hh Hp) as Hs.
  unfold urllib._hostinfo. simpl urllib.netloc.
  change (host ++ ":" ++ p) with (host ++ String ":" p) in *.
  rewrite rpartition_absent by (apply (authority_no_delims _ "@"); [reflexivity | exact Hs]).
  rewrite partition_absent by (apply (authority_no_delims _ "["); [reflexivity | exact Hs]).
  simpl str_nonempty. cbv iota.
  rewrite partition_first by (apply (str_all_not_mem hostname_char); [reflexivity | exact Hh]).
  rewrite Hne. reflexivity.
Qed.

Lemma hostname_host_port host p :
  valid_hostname host = true -> integer_port p = true ->
  urllib.hostname (urllib.mkParseResult (host ++ ":" ++ p)) = Some (lower host).
Proof.
  unfold valid_hostname. rewrite andb_true_iff. intros [Hne Hh] Hp.
  unfold urllib.hostname. rewrite hostinfo_host_port by assumption.
  simpl fst. rewrite Hne.
  rewrite partition_absent by (apply (str_all_not_mem hostname_char); [reflexivity | exact Hh]).
  f_equal. change ("" ++ "") with "". apply str_app_empty_r.
Qed.

Lemma port_host_port host p :
  valid_hostname host = true -> integer_port p = true ->
  within_str_digits p = true ->
  int_digits 0 p <= 65535 ->
  urllib.port (urllib.mkParseResult (host ++ ":" ++ p)) = Ok (Some (int_digits 0 p)).
Proof.
  unfold valid_hostname. rewrite andb_true_iff. intros [Hne Hh] Hp Hlen Hle.
  unfold urllib.port. rewrite hostinfo_host_port by assumption.
  simpl snd. unfold integer_port in Hp. apply andb_true_iff in Hp as [_ Hp].
  rewrite Hp, Hlen.
  pose proof (int_digits_nonneg p 0 Hp ltac:(lia)) as Hge.
  apply Z.leb_le in Hge, Hle. rewrite Hge, Hle. reflexivity.
Qed.

End AddressResolver.

Section ParseOutcomes.

(** The [port] property raises nothing but [ValueError]. *)
Lemma port_raises_ValueError m cls msg :
  urllib.port m = Raise cls msg -> cls = ValueError.
Proof.
  unfold urllib.port. destruct (snd (urllib._hostinfo m)) as [p|]; [|discriminate].
  destruct (str_all is_digit p); [|congruence].
  destruct (within_str_digits p); [|congruence].
  destruct ((0 <=? int_digits 0 p) && (int_digits 0 p <=? 65535)); congruence.
Qed.

(** The network branch: the parse gave a host or a port. *)
Lemma parse_wsgi_bind_addr_network s m p :
  urllib.urlparse ("//" ++ s) = Ok m ->
  urllib.port m = Ok p ->
  negb (is_none (of_opt_str (urllib.hostname m)))
    || negb (is_none (of_opt_int p)) = true ->
  parse_wsgi_bind_addr s = Ok (BindLocation_network (urllib.hostname m) p).
Proof.
  intros Hm Hp Hc. unfold parse_wsgi_bind_addr. rewrite Hm. cbn.
  rewrite Hp. cbn. rewrite Hc. reflexivity.
Qed.

(** Once [urlparse] has returned, so does [parse_wsgi_bind_addr]. *)
Lemma parse_wsgi_bind_addr_returns s m :
  urllib.urlparse ("//" ++ s) = Ok m ->
  exists loc, parse_wsgi_bind_addr s = Ok loc.
Proof.
  intros Hm. unfold parse_wsgi_bind_addr. rewrite Hm. cbn.
  destruct (urllib.port m) as [p|cls msg] eqn:Hp; cbn.
  - destruct (negb (is_none (of_opt_str (urllib.hostname m)))
              || negb (is_none (of_opt_int p))); cbn.
    + eauto.
    + destruct (startswith "@" s); eauto.
  - rewrite (port_raises_ValueError _ _ _ Hp). cbn.
    destruct (startswith "@" s); eauto.
Qed.

(** Lower-casing leaves a text without capitals as it is. *)
Lemma lower_without_capitals s :
  str_all (fun a => negb (is_upper a)) s = true -> lower s = s.
Proof.
  induction s as [|a s IH]; cbn; [reflexivity|].
  rewrite andb_true_iff, negb_true_iff. intros [Ha Hs].
  unfold lower_ascii. rewrite Ha, (IH Hs). reflexivity.
Qed.

(** A bare host name is read as a network location without a port. *)
Lemma hostname_only_network_form host :
  valid_hostname host = true ->
  parse_wsgi_bind_addr host
    = Ok (BindLocation_network (Some (lower host)) None).
Proof.
  unfold valid_hostname. rewrite andb_true_iff. intros [Hne Hh].
  assert (Hs : str_all authority_char host = true).
  { apply (str_all_impl hostname_char); [|exact Hh].
    intros a Ha. unfold authority_char. now rewrite Ha. }
  assert (Hi : urllib._hostinfo (urllib.mkParseResult host) = (host, None)).
  { unfold urllib._hostinfo. simpl urllib.netloc.
    rewrite rpartition_absent
      by (apply (authority_no_delims _ "@"); [reflexivity | exact Hs]).
    rewrite partition_absent
      by (apply (authority_no_delims _ "["); [reflexivity | exact Hs]).
    simpl str_nonempty. cbv iota.
    rewrite partition_absent
      by (apply (str_all_not_mem hostname_char); [reflexivity | exact Hh]).
    reflexivity. }
  assert (Hn : urllib.hostname (urllib.mkParseResult host) = Some (lower host)).
  { unfold urllib.hostname. rewrite Hi. simpl fst. rewrite Hne.
    rewrite partition_absent
      by (apply (str_all_not_mem hostname_char); [reflexivity | exact Hh]).
    f_equal. change ("" ++ "") with "". apply str_app_empty_r. }
  rewrite (parse_wsgi_bind_addr_network host _ None (urlparse_authority _ Hs)).
  - now rewrite Hn.
  - unfold urllib.port. now rewrite Hi.
  - now rewrite Hn.
Qed.

End ParseOutcomes.

(** X4.  A text that begins with [@/] has an empty authority after the
    user information, so it does reach the abstract-socket branch: the
    name is the text without the [@], and the effective address is that
    name behind a NUL. *)
Lemma parse_wsgi_bind_addr_at_path rest :
  parse_wsgi_bind_addr (String "@" (String "/" rest))
    = Ok (BindLocation_abstract (String "/" rest))
  /\ bind_addr (BindLocation_abstract (String "/" rest))
     = PyStr (String NUL (String "/" rest)).
Proof. split; reflexivity. Qed.

Example parse_unix_socket_path :
  parse_wsgi_bind_addr "/var/spool/myapp.sock"
    = Ok (BindLocation_file "/var/spool/myapp.sock")
  /\ bind_addr (BindLocation_file "/var/spool/myapp.sock")
     = PyStr "/var/spool/myapp.sock".
Proof. split; reflexivity. Qed.

Example parse_port_only :
  parse_wsgi_bind_addr ":8000" = Ok (BindLocation_network None (Some 8000)).
Proof. reflexivity. Qed.

Example parse_port_out_of_range :
  parse_wsgi_bind_addr "host:70000" = Ok (BindLocation_file "host:70000").
Proof. reflexivity. Qed.

Example parse_bracketed_host :
  parse_wsgi_bind_addr "[::1]:8000"
    = Ok (BindLocation_network (Some "::1") (Some 8000)).
Proof. reflexivity. Qed.

Example parse_empty_text :
  parse_wsgi_bind_addr "" = Ok (BindLocation_file "")
  /\ bind_addr (BindLocation_file "") = PyNone.
Proof. split; reflexivity. Qed.

(** C2 (fails on the code).  [parse_wsgi_bind_addr] is not total: on the
    input ["["] the call to [urlparse], which stands before the [try]
    block, raises [ValueError], and the exception leaves the function
    instead of giving way to the file-path interpretation. *)
Theorem parse_wsgi_bind_addr_open_bracket_raises :
  parse_wsgi_bind_addr "[" = Raise ValueError "Invalid IPv6 URL".
Proof. reflexivity. Qed.

(** C3 (fails on the code).  The input ["@CherootServer"] begins with [@],
    yet the authority parse reads it as empty user information followed by
    the host [cherootserver], so the network branch returns first: the
    result is no abstract-socket location and its effective address is
    [None], not the name behind a NUL byte. *)
Theorem parse_wsgi_bind_addr_at_name_is_network :
  parse_wsgi_bind_addr "@CherootServer"
    = Ok (BindLocation_network (Some "cherootserver") None)
  /\ bind_addr (BindLocation_network (Some "cherootserver") None) = PyNone
  /\ parse_wsgi_bind_addr "@CherootServer"
       <> Ok (BindLocation_abstract "CherootServer").
Proof. repeat split; (reflexivity || discriminate). Qed.

(** C7.  When the authority parse of the input yields a host name and no
    port, [parse_wsgi_bind_addr] returns the network-form location with
    that host and a null port, and the effective address of that location
    is [None]. *)
Theorem hostname_without_port_has_no_bind_addr s m h :
  urllib.urlparse ("//" ++ s) = Ok m ->
  urllib.hostname m = Some h ->
  urllib.port m = Ok None ->
  parse_wsgi_bind_addr s = Ok (BindLocation_network (Some h) None)
  /\ bind_addr (BindLocation_network (Some h) None) = PyNone.
Proof.
  intros Hm Hh Hp. split; [|reflexivity].
  rewrite (parse_wsgi_bind_addr_network s m None Hm Hp); rewrite Hh; reflexivity.
Qed.

Lemma hostname_without_port_witness :
  parse_wsgi_bind_addr "myhost" = Ok (BindLocation_network (Some "myhost") None)
  /\ bind_addr (BindLocation_network (Some "myhost") None) = PyNone.
Proof.
  apply (hostname_without_port_has_no_bind_addr
           "myhost" (urllib.mkParseResult "myhost") "myhost"); reflexivity.
Defined.

(** C9 as stated fails: the host of ["LocalHost:8000"] is a valid host name
    and the port an integer, but the address of the result is the
    lower-cased ["localhost"], not exactly the host given. *)
Lemma host_port_exact_host_counterexample :
  valid_hostname "LocalHost" = true /\ integer_port "8000" = true
  /\ parse_wsgi_bind_addr ("LocalHost" ++ ":" ++ "8000")
       = Ok (BindLocation_network (Some "localhost") (Some 8000))
  /\ parse_wsgi_bind_addr ("LocalHost" ++ ":" ++ "8000")
       <> Ok (BindLocation_network (Some "LocalHost") (Some 8000)).
Proof. repeat split; (reflexivity || discriminate). Qed.

(** C9 (amended).  For every input [host:port] whose host is a non-empty
    text of letters, digits, hyphens and dots and whose port is a decimal
    integer between 0 and 65535, written with at most 4300 digits,
    [parse_wsgi_bind_addr] returns the network-form location whose address
    is the host in lower case and whose port is that integer, and the
    effective address is the pair of the two. *)
Theorem host_port_network_form host p :
  valid_hostname host = true ->
  integer_port p = true ->
  within_str_digits p = true ->
  (int_digits 0 p <=? 65535) = true ->
  parse_wsgi_bind_addr (host ++ ":" ++ p)
    = Ok (BindLocation_network (Some (lower host)) (Some (int_digits 0 p)))
  /\ bind_addr (BindLocation_network (Some (lower host)) (Some (int_digits 0 p)))
     = PyTuple [PyStr (lower host); PyInt (int_digits 0 p)].
Proof.
  intros Hh Hp Hlen Hle. apply Z.leb_le in Hle. split; [|reflexivity].
  assert (Hs : str_all authority_char (host ++ ":" ++ p) = true).
  { unfold valid_hostname, integer_port in *.
    apply andb_true_iff in Hh as [_ Hh]. apply andb_true_iff in Hp as [_ Hp].
    now apply authority_host_port. }
  rewrite (parse_wsgi_bind_addr_network _ _ (Some (int_digits 0 p))
             (urlparse_authority _ Hs) (port_host_port host p Hh Hp Hlen Hle)).
  - now rewrite hostname_host_port.
  - now rewrite hostname_host_port.
Qed.

Lemma host_port_network_form_witness :
  parse_wsgi_bind_addr "0.0.0.0:9000"
    = Ok (BindLocation_network (Some "0.0.0.0") (Some 9000))
  /\ bind_addr (BindLocation_network (Some "0.0.0.0") (Some 9000))
     = PyTuple [PyStr "0.0.0.0"; PyInt 9000].
Proof.
  apply (host_port_network_form "0.0.0.0" "9000"); reflexivity.
Defined.

(** ** The effective address *)

(** C6 as stated fails: with an empty (but non-null) file path and the
    abstract name ["sock"], the effective address is the abstract form,
    which the stated precedence does not allow for this location. *)
Lemma bind_addr_empty_file_path_counterexample :
  bind_addr (mkBindLocation None None (Some "") (Some "sock"))
    = PyStr (String NUL "sock")
  /\ ~ effective_address_spec
         (mkBindLocation None None (Some "") (Some "sock"))
         (bind_addr (mkBindLocation None None (Some "") (Some "sock"))).
Proof.
  split; [reflexivity|].
  intros H. inversion H; simpl in *; congruence.
Qed.

(** C6 (amended).  For every BindLocation value, reading the effective
    address yields, with fixed precedence: the (address, port) pair when
    both are non-null; otherwise the file path when it is non-null and not
    empty; otherwise the abstract name behind a NUL when it is non-null and
    not empty; otherwise the abstract-name field as it is (the empty text,
    or null). *)
Theorem bind_addr_precedence (b : BindLocation) :
  bind_addr b =
    match address b, port b with
    | Some a, Some p => PyTuple [PyStr a; PyInt p]
    | _, _ =>
        match file_socket b with
        | Some (String c path) => PyStr (String c path)
        | _ =>
            match abstract_socket b with
            | Some (String c name) => PyStr (String NUL (String c name))
            | Some EmptyString => PyStr EmptyString
            | None => PyNone
            end
        end
    end.
Proof.
  destruct b as [[a|] [p|] [[|c path]|] [[|d name]|]]; reflexivity.
Qed.

(** ** The application resolver *)

(** A package whose module [pkg.mod] exposes a plain function under the
    default attribute name. *)
Definition pkg_modules : gmap string (gmap string pyobj) :=
  {[ "pkg.mod" := {[ "application" := PyFunction "pkg.mod.application" ]} ]}.

Section ApplicationResolver.

Variable modules : gmap string (gmap string pyobj).

(** [str.partition] always gives three items, one more than the two
    targets of the assignment in [resolve] take. *)
Lemma resolve_unpack_raises full_path :
  Application.resolve modules full_path
    = Raise ValueError "too many values to unpack (expected 2)".
Proof.
  unfold Application.resolve.
  destruct (partition ":" full_path) as [[mod_path sep] app_path].
  reflexivity.
Qed.

(** What the subclass probe and the constructor decide together. *)
Lemma classify_cases app :
  Application.classify app =
    if is_gateway_subclass app
    then Ok (Application.IsGateway (Gateway.mk app))
    else if callable app
         then Ok (Application.IsApplication (Application.mk app))
         else Raise TypeError
                "Application must be a callable object or cheroot.server.Gateway subclass".
Proof.
  unfold Application.classify, is_gateway_subclass.
  destruct app; try reflexivity.
  - cbn. destruct (bool_decide (server_Gateway ∈ mro)); reflexivity.
  - cbn. destruct has_call; reflexivity.
Qed.

(** The rest of [resolve], from the import on, does what is expected of
    it for a plain function. *)
Lemma resolve_from_plain_function mod_path app_path m name :
  str_nonempty mod_path = true ->
  modules !! mod_path = Some m ->
  m !! (if str_nonempty app_path then app_path else "application")
    = Some (PyFunction name) ->
  Application.resolve_from modules mod_path app_path
    = Ok (Application.IsApplication (Application.mk (PyFunction name))).
Proof.
  intros Hne Hm Ha. unfold Application.resolve_from, import_module, getattr.
  rewrite Hne, Hm. cbn. rewrite Ha. reflexivity.
Qed.

End ApplicationResolver.

(** C1 (fails on the code).  The module [pkg.mod] imports and exposes a
    plain function as [application], yet resolving ["pkg.mod"] returns no
    handle: the 3-tuple of [partition] is unpacked into two names, which
    raises [ValueError] before anything is imported. *)
Theorem resolve_default_attribute_raises :
  Application.resolve pkg_modules "pkg.mod"
    = Raise ValueError "too many values to unpack (expected 2)"
  /\ Application.resolve_from pkg_modules "pkg.mod" ""
    = Ok (Application.IsApplication
            (Application.mk (PyFunction "pkg.mod.application"))).
Proof. split; reflexivity. Qed.

(** C8.  For an object that is not a Gateway subclass: when it is not
    callable either, classification fails with a [TypeError] whose message
    names both accepted forms; and when it is no class at all, the
    [TypeError] of the subclass probe is not what comes out - the outcome
    is that of the callable check of [Application.__init__]. *)
Theorem classify_not_gateway app :
  is_gateway_subclass app = false ->
  (callable app = false ->
     Application.classify app
       = Raise TypeError
           "Application must be a callable object or cheroot.server.Gateway subclass"
     /\ contains "callable object"
          "Application must be a callable object or cheroot.server.Gateway subclass"
        = true
     /\ contains "cheroot.server.Gateway subclass"
          "Application must be a callable object or cheroot.server.Gateway subclass"
        = true)
  /\ (is_class app = false ->
        issubclass app server_Gateway
          = Raise TypeError "issubclass() arg 1 must be a class"
        /\ Application.classify app
           = (a ← Application.__init__ app; Ok (Application.IsApplication a))).
Proof.
  intros Hgw. split.
  - intros Hcall. rewrite classify_cases, Hgw, Hcall. repeat split.
  - intros Hcls. split.
    + destruct app; try reflexivity. discriminate.
    + rewrite classify_cases, Hgw. unfold Application.__init__.
      destruct (callable app); reflexivity.
Qed.

Lemma classify_not_gateway_witness :
  Application.classify (PyInt 42)
    = Raise TypeError
        "Application must be a callable object or cheroot.server.Gateway subclass".
Proof.
  apply (classify_not_gateway (PyInt 42)); reflexivity.
Defined.

(** ** The keyword sets *)

Section ConfigBuilder.

Lemma is_none_false v : is_none v = false <-> v <> PyNone.
Proof. destruct v; simpl; split; congruence. Qed.

Lemma server_args_lookup self (parsed_args : gmap string pyobj) k :
  Application.server_args self parsed_args !! k =
    if decide (k = "wsgi_app") then Some (Application.wsgi_app self)
    else if startswith "_" k then None
    else match parsed_args !! k with
         | Some v => if is_none v then None else Some v
         | None => None
         end.
Proof.
  unfold Application.server_args, Application.vars.
  destruct (decide (k = "wsgi_app")) as [->|Hk].
  - apply lookup_union_Some_l, lookup_singleton_eq.
  - rewrite lookup_union_r by (now apply lookup_singleton_ne).
    destruct (startswith "_" k) eqn:Hu.
    + apply map_lookup_filter_None. right. intros v _ [Hs _]. simpl in Hs. congruence.
    + destruct (parsed_args !! k) as [v|] eqn:Hv.
      * destruct (is_none v) eqn:Hn.
        -- apply map_lookup_filter_None. right. intros v' Hv' [_ Hn'].
           simpl in Hn'. congruence.
        -- apply map_lookup_filter_Some. auto.
      * apply map_lookup_filter_None. now left.
Qed.

(** [Namespace] objects cannot be subscripted, so [Gateway.server] stops
    at its first statement after [vars(self)]. *)
Lemma Gateway_server_raises self (parsed_args : gmap string pyobj) :
  Gateway.server self parsed_args
    = Raise TypeError "'Namespace' object is not subscriptable".
Proof. reflexivity. Qed.

(** [Application.server] calls [server_args] without its argument. *)
Lemma Application_server_raises self (parsed_args : gmap string pyobj) :
  Application.server self parsed_args
    = Raise TypeError
        "server_args() missing 1 required positional argument: parsed_args".
Proof. reflexivity. Qed.

End ConfigBuilder.

(** C5.  For every application handle and every parsed option set, the
    keyword set of [server_args] holds exactly: the callable under
    [wsgi_app], and every parsed entry under another key that does not
    begin with [_] and whose value is not [None]. *)
Theorem server_args_exact self (parsed_args : gmap string pyobj) k v :
  Application.server_args self parsed_args !! k = Some v <->
    (k = "wsgi_app" /\ v = Application.wsgi_app self)
    \/ (k <> "wsgi_app" /\ parsed_args !! k = Some v
        /\ startswith "_" k = false /\ v <> PyNone).
Proof.
  rewrite server_args_lookup.
  destruct (decide (k = "wsgi_app")) as [->|Hk].
  - split.
    + intros [= <-]. now left.
    + intros [[_ ->]|[Hne _]]; [reflexivity | congruence].
  - destruct (startswith "_" k) eqn:Hu.
    + split; [discriminate|]. intros [[? _]|(_ & _ & ? & _)]; congruence.
    + destruct (parsed_args !! k) as [v'|] eqn:Hv.
      * destruct (is_none v') eqn:Hn.
        -- split; [discriminate|].
           intros [[? _]|(_ & [= ->] & _ & Hnn)]; [congruence|].
           apply is_none_false in Hnn. congruence.
        -- split.
           ++ intros [= <-]. right. repeat split; auto. now apply is_none_false.
           ++ intros [[? _]|(_ & [= ->] & _)]; congruence.
      * split; [discriminate|]. intros [[? _]|(_ & ? & _)]; congruence.
Qed.

(** The namespace of the command line [mypkg.gw:Handler --bind
    /tmp/app.sock] when [Handler] is a Gateway subclass. *)
Definition Handler : pyobj :=
  PyClass "mypkg.gw.Handler"
          ["mypkg.gw.Handler"; "cheroot.server.Gateway"; "object"].

Definition gateway_scenario_args : gmap string pyobj :=
  <[ "_wsgi_app" := PyGateway Handler ]>
    (<[ "bind_addr" := PyBindLocation (BindLocation_file "/tmp/app.sock") ]>
       initial_namespace).

(** C4 (fails on the code).  For the Gateway handle of [Handler] and the
    namespace of [mypkg.gw:Handler --bind /tmp/app.sock], [Gateway.server]
    builds no keyword set: reading [parsed_args['bind_addr']] raises
    [TypeError], so neither the bind address nor the gateway reaches the
    server constructor. *)
Theorem Gateway_server_scenario_raises :
  Gateway.server (Gateway.__init__ Handler) gateway_scenario_args
    = Raise TypeError "'Namespace' object is not subscriptable"
  /\ Namespace_getattr gateway_scenario_args "bind_addr"
    = Ok (PyBindLocation (BindLocation_file "/tmp/app.sock")).
Proof. split; reflexivity. Qed.

(** ** The working-directory option *)

Section ChdirOption.

(** [os.chdir] returns [None] whenever it returns. *)
Lemma os_chdir_returns_None path w v w' :
  os_chdir path w = (Ok v, w') -> v = PyNone.
Proof.
  unfold os_chdir. destruct (bool_decide (path ∈ directories w)); congruence.
Qed.

(** Only the entry of [--chdir] stores under the key [chdir], and its
    converter is [os.chdir]. *)
Lemma chdir_key_entry name e :
  find_arg name = Some e ->
  argparse_dest e = "chdir" -> type e = type_os_chdir.
Proof.
  unfold find_arg. intros Hf. apply find_some in Hf as [Hin _].
  simpl in Hin.
  repeat (destruct Hin as [<-|Hin]; [vm_compute; congruence|]).
  destruct Hin.
Qed.

(** Reading command-line items keeps [chdir] at [None]. *)
Lemma parse_items_chdir argv : forall (ns ns' : gmap string pyobj) w w',
  ns !! "chdir" = Some PyNone ->
  parse_items argv ns w = (Ok ns', w') ->
  ns' !! "chdir" = Some PyNone.
Proof.
  induction argv as [|[name raw] rest IH]; intros ns ns' w w' Hns; cbn [parse_items].
  - congruence.
  - destruct (find_arg name) as [e|] eqn:He; [|discriminate].
    destruct (run_converter (type e) raw w) as [[v|cls msg] w1] eqn:Hrun.
    + apply IH.
      destruct (decide (argparse_dest e = "chdir")) as [Hd|Hd].
      * rewrite Hd, lookup_insert_eq. f_equal.
        rewrite (chdir_key_entry name e He Hd) in Hrun. cbn in Hrun.
        exact (os_chdir_returns_None _ _ _ _ Hrun).
      * now rewrite lookup_insert_ne.
    + destruct (bool_decide (cls = TypeError) || bool_decide (cls = ValueError));
        discriminate.
Qed.

End ChdirOption.

(** C10.  The converter of [--chdir] is [os.chdir], stored under the key
    [chdir], and yields [None] whenever it returns.  Hence for every
    sequence of command-line items read successfully, [chdir] is [None] in
    the namespace, the keyword set of [server_args] has no [chdir] key for
    any application handle, and no server constructor is called with
    one. *)
Theorem chdir_never_forwarded argv w (ns : gmap string pyobj) w' :
  parse_items argv initial_namespace w = (Ok ns, w') ->
  (type <$> find_arg "--chdir" = Some type_os_chdir
   /\ argparse_dest <$> find_arg "--chdir" = Some "chdir"
   /\ forall path w1 v w2, os_chdir path w1 = (Ok v, w2) -> v = PyNone)
  /\ ns !! "chdir" = Some PyNone
  /\ (forall self, Application.server_args self ns !! "chdir" = None)
  /\ (forall h, match handle_server h ns with
                | Ok (wsgi_Server kwargs) | Ok (server_HTTPServer kwargs) =>
                    kwargs !! "chdir" = None
                | Raise _ _ => True
                end).
Proof.
  intros Hparse.
  assert (Hc : ns !! "chdir" = Some PyNone)
    by (eapply parse_items_chdir; [|exact Hparse]; reflexivity).
  split; [|split; [exact Hc|split]].
  - repeat split. apply os_chdir_returns_None.
  - intros self. rewrite server_args_lookup, Hc. reflexivity.
  - intros [g|a]; cbn [handle_server].
    + now rewrite Gateway_server_raises.
    + now rewrite Application_server_raises.
Qed.

Lemma chdir_never_forwarded_witness :
  (<[ "numthreads" := PyInt 8 ]> (<[ "chdir" := PyNone ]> initial_namespace)
     : gmap string pyobj) !! "chdir" = Some PyNone.
Proof.
  refine (proj1 (proj2
    (chdir_never_forwarded
       [("--chdir", "/srv"); ("--threads", "8")]
       (mkWorld "/" ["/srv"; "/tmp"] pkg_modules)
       (<[ "numthreads" := PyInt 8 ]> (<[ "chdir" := PyNone ]> initial_namespace))
       (mkWorld "/srv" ["/srv"; "/tmp"] pkg_modules) _))).
  reflexivity.
Defined.

(** ** More on the address resolver *)

Section ResolverOutcomes.

(** [urlparse] on the text handed over by [parse_wsgi_bind_addr]. *)
Lemma urlparse_slashes s :
  urllib.urlparse ("//" ++ s) =
    if unbalanced_brackets (urllib.take_netloc s)
    then Raise ValueError "Invalid IPv6 URL"
    else Ok (urllib.mkParseResult (urllib.take_netloc s)).
Proof.
  change ("//" ++ s) with (String "/" (String "/" s)).
  unfold urllib.urlparse, urllib._splitnetloc, startswith, unbalanced_brackets.
  simpl. destruct s; reflexivity.
Qed.

Lemma parse_wsgi_bind_addr_raise_class s cls msg :
  parse_wsgi_bind_addr s = Raise cls msg -> cls = ValueError.
Proof.
  unfold parse_wsgi_bind_addr. rewrite urlparse_slashes.
  destruct (unbalanced_brackets (urllib.take_netloc s)); cbn; [congruence|].
  destruct (urllib.port _) as [p|c m] eqn:Hp; cbn.
  - destruct (negb _ || negb _); cbn; [discriminate|].
    destruct (startswith "@" s); discriminate.
  - rewrite (port_raises_ValueError _ _ _ Hp). cbn.
    destruct (startswith "@" s); discriminate.
Qed.

Lemma first_char_not_at a s :
  hostname_char a = true -> startswith "@" (String a s) = false.
Proof.
  intros Ha. unfold startswith.
  change (String.prefix "@" (String a s))
    with (if ascii_dec "@" a then String.prefix "" s else false).
  destruct (ascii_dec "@" a) as [<-|_]; [discriminate Ha | reflexivity].
Qed.

Lemma first_char_at a s :
  startswith "@" (String a s) = true -> a = "@"%char.
Proof.
  unfold startswith.
  change (String.prefix "@" (String a s))
    with (if ascii_dec "@" a then String.prefix "" s else false).
  destruct (ascii_dec "@" a) as [<-|_]; [reflexivity | discriminate].
Qed.

Lemma hostinfo_host_colon host p :
  str_all hostname_char host = true ->
  str_all hostname_char p = true -> str_nonempty p = true ->
  str_all authority_char (host ++ ":" ++ p) = true
  /\ urllib._hostinfo (urllib.mkParseResult (host ++ ":" ++ p)) = (host, Some p).
Proof.
  intros Hh Hp Hne.
  assert (Hs : str_all authority_char (host ++ ":" ++ p) = true).
  { change (host ++ ":" ++ p) with (host ++ String ":" p).
    rewrite str_all_app. cbn [str_all].
    rewrite !(str_all_impl hostname_char authority_char); auto;
      intros a Ha; unfold authority_char; now rewrite Ha. }
  split; [exact Hs|].
  unfold urllib._hostinfo. simpl urllib.netloc.
  change (host ++ ":" ++ p) with (host ++ String ":" p) in *.
  rewrite rpartition_absent
    by (apply (authority_no_delims _ "@"); [reflexivity | exact Hs]).
  rewrite partition_absent
    by (apply (authority_no_delims _ "["); [reflexivity | exact Hs]).
  simpl str_nonempty. cbv iota.
  rewrite partition_first
    by (apply (str_all_not_mem hostname_char); [reflexivity | exact Hh]).
  now rewrite Hne.
Qed.

End ResolverOutcomes.

(** X1.  [parse_wsgi_bind_addr] raises [ValueError] on every text whose
    part before the first [/], [?] or [#] holds one square bracket without
    the other; and it returns a location on every text whose part before
    the first [/], [?] or [#] is made of letters, digits, hyphens, dots
    and colons only (an empty part included). *)
Theorem parse_wsgi_bind_addr_outcome s :
  (unbalanced_brackets (urllib.take_netloc s) = true ->
     parse_wsgi_bind_addr s = Raise ValueError "Invalid IPv6 URL")
  /\ (str_all authority_char (urllib.take_netloc s) = true ->
       exists loc, parse_wsgi_bind_addr s = Ok loc).
Proof.
  pose proof (urlparse_slashes s) as Hu. split.
  - intros Hb. rewrite Hb in Hu. unfold parse_wsgi_bind_addr. now rewrite Hu.
  - intros Hs.
    assert (Hb : unbalanced_brackets (urllib.take_netloc s) = false).
    { unfold unbalanced_brackets.
      rewrite (authority_no_delims _ "["), (authority_no_delims _ "]")
        by (reflexivity || exact Hs).
      reflexivity. }
    rewrite Hb in Hu. exact (parse_wsgi_bind_addr_returns s _ Hu).
Qed.

Lemma parse_wsgi_bind_addr_outcome_witness :
  parse_wsgi_bind_addr "[::1" = Raise ValueError "Invalid IPv6 URL".
Proof.
  apply (proj1 (parse_wsgi_bind_addr_outcome "[::1")). reflexivity.
Defined.

(** The three forms of a returned location. *)
Lemma parse_wsgi_bind_addr_forms s loc :
  parse_wsgi_bind_addr s = Ok loc -> resolved_form s loc.
Proof.
  unfold parse_wsgi_bind_addr. rewrite urlparse_slashes.
  destruct (unbalanced_brackets (urllib.take_netloc s)); cbn; [discriminate|].
  set (m := urllib.mkParseResult (urllib.take_netloc s)).
  assert (Hsock : (if startswith "@" s
                   then Ok (BindLocation_abstract (str_drop 1 s))
                   else Ok (BindLocation_file s)) = Ok loc ->
                  resolved_form s loc).
  { destruct (startswith "@" s) eqn:Hat; intros [= <-]; now constructor. }
  destruct (urllib.port m) as [p|c msg] eqn:Hp; cbn.
  - destruct (urllib.hostname m) as [a|]; cbn.
    + intros [= <-]. constructor. left. discriminate.
    + destruct p as [n|]; cbn.
      * intros [= <-]. constructor. right. discriminate.
      * exact Hsock.
  - rewrite (port_raises_ValueError _ _ _ Hp). cbn. exact Hsock.
Qed.

(** X2.  A location returned by [parse_wsgi_bind_addr] has one field group
    only: a network location with a host or a port (or both) and no socket
    field; or, for a text that begins with [@], the abstract name that is
    the text without its first character; or else the file path that is
    the text as given. *)
Theorem parse_wsgi_bind_addr_one_form s loc :
  parse_wsgi_bind_addr s = Ok loc -> resolved_form s loc.
Proof. apply parse_wsgi_bind_addr_forms. Qed.

Lemma parse_wsgi_bind_addr_one_form_witness :
  resolved_form "@/run/cheroot" (BindLocation_abstract "/run/cheroot").
Proof.
  apply (parse_wsgi_bind_addr_one_form "@/run/cheroot"). reflexivity.
Defined.

(** X3.  An absolute path is always read as a UNIX socket file: the
    location is the file form with the path as given, and the path is its
    effective address. *)
Theorem parse_wsgi_bind_addr_absolute_path rest :
  parse_wsgi_bind_addr (String "/" rest) = Ok (BindLocation_file (String "/" rest))
  /\ bind_addr (BindLocation_file (String "/" rest)) = PyStr (String "/" rest).
Proof. split; reflexivity. Qed.

(** X5.  A text made of a colon and a decimal port within 0..65535,
    written with at most 4300 digits, is read as a network location with
    that port and no address, and such a location has no effective
    address. *)
Theorem port_only_has_no_bind_addr p :
  integer_port p = true ->
  within_str_digits p = true ->
  (int_digits 0 p <=? 65535) = true ->
  parse_wsgi_bind_addr (":" ++ p)
    = Ok (BindLocation_network None (Some (int_digits 0 p)))
  /\ bind_addr (BindLocation_network None (Some (int_digits 0 p))) = PyNone.
Proof.
  intros Hp Hlen Hle. split; [|reflexivity].
  unfold integer_port in Hp. apply andb_true_iff in Hp as [Hne Hd].
  assert (Hs : str_all authority_char (":" ++ p) = true).
  { change (":" ++ p) with (String ":" p). cbn [str_all].
    rewrite (str_all_impl is_digit authority_char p); auto.
    intros a Ha. unfold authority_char, hostname_char. rewrite Ha.
    now rewrite !orb_true_r. }
  assert (Hi : urllib._hostinfo (urllib.mkParseResult (":" ++ p))
               = (EmptyString, Some p)).
  { unfold urllib._hostinfo. simpl urllib.netloc.
    rewrite rpartition_absent
      by (apply (authority_no_delims _ "@"); [reflexivity | exact Hs]).
    rewrite partition_absent
      by (apply (authority_no_delims _ "["); [reflexivity | exact Hs]).
    change (":" ++ p) with (String ":" p). cbn. now rewrite Hne. }
  rewrite (parse_wsgi_bind_addr_network _ _ (Some (int_digits 0 p))
             (urlparse_authority _ Hs)).
  - unfold urllib.hostname. now rewrite Hi.
  - unfold urllib.port. rewrite Hi. cbn [snd]. rewrite Hd, Hlen.
    pose proof (int_digits_nonneg p 0 Hd ltac:(lia)) as Hge.
    apply Z.leb_le in Hge. now rewrite Hge, Hle.
  - unfold urllib.hostname. now rewrite Hi.
Qed.

Lemma port_only_has_no_bind_addr_witness :
  parse_wsgi_bind_addr ":8000" = Ok (BindLocation_network None (Some 8000))
  /\ bind_addr (BindLocation_network None (Some 8000)) = PyNone.
Proof. apply (port_only_has_no_bind_addr "8000"); reflexivity. Defined.

(** A port of more than 4300 digits is refused by [int], whatever its
    value, and the text is a file path. *)
Lemma host_overlong_port_is_file_path host p :
  valid_hostname host = true ->
  integer_port p = true ->
  within_str_digits p = false ->
  parse_wsgi_bind_addr (host ++ ":" ++ p)
    = Ok (BindLocation_file (host ++ ":" ++ p)).
Proof.
  unfold valid_hostname, integer_port. rewrite !andb_true_iff.
  intros [Hne Hh] [Hpne Hd] Hlong.
  assert (Hp : str_all hostname_char p = true).
  { apply (str_all_impl is_digit); [|exact Hd].
    intros a Ha. unfold hostname_char. rewrite Ha. now rewrite !orb_true_r. }
  destruct (hostinfo_host_colon host p Hh Hp Hpne) as [Hs Hi].
  destruct host as [|a host]; [discriminate|].
  cbn in Hh. apply andb_true_iff in Hh as [Ha _].
  unfold parse_wsgi_bind_addr. rewrite (urlparse_authority _ Hs). cbn.
  unfold urllib.port. rewrite Hi. cbn [snd]. rewrite Hd, Hlong. cbn.
  change ((String a host) ++ ":" ++ p) with (String a (host ++ ":" ++ p)).
  now rewrite (first_char_not_at a _ Ha).
Qed.

(** X6.  When the text after the colon of [host:port] is no decimal
    number within 0..65535 (letters, or a number too large), the whole
    text is read as a UNIX socket file path, and that path is the
    effective address. *)
Theorem host_bad_port_is_file_path host p :
  valid_hostname host = true ->
  str_nonempty p = true ->
  str_all hostname_char p = true ->
  str_all is_digit p && (int_digits 0 p <=? 65535) = false ->
  parse_wsgi_bind_addr (host ++ ":" ++ p)
    = Ok (BindLocation_file (host ++ ":" ++ p))
  /\ bind_addr (BindLocation_file (host ++ ":" ++ p))
     = PyStr (host ++ ":" ++ p).
Proof.
  unfold valid_hostname. rewrite andb_true_iff. intros [Hne Hh] Hpne Hp Hbad.
  destruct (hostinfo_host_colon host p Hh Hp Hpne) as [Hs Hi].
  assert (Hport : exists msg,
             urllib.port (urllib.mkParseResult (host ++ ":" ++ p))
             = Raise ValueError msg).
  { unfold urllib.port. rewrite Hi. cbn [snd].
    destruct (str_all is_digit p); [|eauto].
    destruct (within_str_digits p); [|eauto].
    cbn in Hbad. rewrite Hbad, andb_false_r. eauto. }
  destruct Hport as [msg Hport].
  destruct host as [|a host]; [discriminate|].
  cbn in Hh. apply andb_true_iff in Hh as [Ha _].
  split; [|reflexivity].
  unfold parse_wsgi_bind_addr. rewrite (urlparse_authority _ Hs). cbn.
  rewrite Hport. cbn.
  change ((String a host) ++ ":" ++ p) with (String a (host ++ ":" ++ p)).
  now rewrite (first_char_not_at a _ Ha).
Qed.

Lemma host_bad_port_is_file_path_witness :
  parse_wsgi_bind_addr "host:70000" = Ok (BindLocation_file "host:70000")
  /\ bind_addr (BindLocation_file "host:70000") = PyStr "host:70000".
Proof. apply (host_bad_port_is_file_path "host" "70000"); reflexivity. Defined.

(** X7.  A text of letters, digits, hyphens and dots alone - a host name,
    but just as well a relative socket file name such as [app.sock] - is
    read as a network location without a port, never as a file path, and
    has no effective address. *)
Theorem bare_name_has_no_bind_addr name :
  valid_hostname name = true ->
  parse_wsgi_bind_addr name
    = Ok (BindLocation_network (Some (lower name)) None)
  /\ parse_wsgi_bind_addr name <> Ok (BindLocation_file name)
  /\ bind_addr (BindLocation_network (Some (lower name)) None) = PyNone.
Proof.
  intros Hn. rewrite (hostname_only_network_form name Hn).
  repeat split. discriminate.
Qed.

Lemma bare_name_has_no_bind_addr_witness :
  parse_wsgi_bind_addr "app.sock"
    = Ok (BindLocation_network (Some "app.sock") None).
Proof. apply (bare_name_has_no_bind_addr "app.sock"). reflexivity. Defined.

(** X8.  A location has no effective address exactly when its address or
    its port is missing, its file path is missing or empty, and it has no
    abstract name. *)
Theorem bind_addr_None_iff (b : BindLocation) :
  bind_addr b = PyNone <->
    (address b = None \/ port b = None)
    /\ (file_socket b = None \/ file_socket b = Some EmptyString)
    /\ abstract_socket b = None.
Proof.
  destruct b as [[a|] [p|] [[|c path]|] [[|d name]|]]; cbn;
    (split;
     [ first [discriminate | intros _; auto 6]
     | intros ([?|?] & [?|?] & ?); first [reflexivity | congruence] ]).
Qed.

(** X9.  Whenever the effective address of a parsed text is a string, it
    is determined by the text: the text itself when it does not begin with
    [@]; otherwise the text with a NUL in place of the [@] - or the empty
    string when the text is [@] alone. *)
Theorem bind_addr_text_of_parsed s loc t :
  parse_wsgi_bind_addr s = Ok loc ->
  bind_addr loc = PyStr t ->
  (startswith "@" s = false /\ t = s)
  \/ (startswith "@" s = true
      /\ (t = String NUL (str_drop 1 s) \/ (s = "@" /\ t = EmptyString))).
Proof.
  intros Hparse Ht.
  destruct (parse_wsgi_bind_addr_forms s loc Hparse) as [a p _|Hat|Hat].
  - destruct a, p; cbn in Ht; discriminate Ht.
  - right. split; [exact Hat|].
    destruct s as [|c [|c' s]]; [discriminate|..].
    + right. rewrite (first_char_at c _ Hat) in *.
      cbn in Ht. split; congruence.
    + left. cbn in Ht. injection Ht as <-. reflexivity.
  - left. split; [exact Hat|].
    destruct s; cbn in Ht; congruence.
Qed.

Lemma bind_addr_text_of_parsed_witness :
  (startswith "@" "/tmp/app.sock" = false /\ "/tmp/app.sock" = "/tmp/app.sock")
  \/ (startswith "@" "/tmp/app.sock" = true
      /\ ("/tmp/app.sock" = String NUL (str_drop 1 "/tmp/app.sock")
          \/ ("/tmp/app.sock" = "@" /\ "/tmp/app.sock" = EmptyString))).
Proof.
  apply (bind_addr_text_of_parsed "/tmp/app.sock"
           (BindLocation_file "/tmp/app.sock") "/tmp/app.sock"); reflexivity.
Defined.

(** ** More on the application resolver *)

(** X10.  Classification wraps the object it is given, and only a callable
    one: the handle is the Gateway variant exactly for a Gateway subclass;
    the only failure is a [TypeError], and only for an object that is
    neither callable nor a class. *)
Theorem classify_sound app :
  match Application.classify app with
  | Ok h =>
      handle_target h = app /\ callable app = true
      /\ match h with
         | Application.IsGateway _ => is_gateway_subclass app = true
         | Application.IsApplication _ => is_gateway_subclass app = false
         end
  | Raise cls _ =>
      cls = TypeError /\ callable app = false /\ is_class app = false
  end.
Proof.
  rewrite classify_cases.
  destruct (is_gateway_subclass app) eqn:Hgw.
  - repeat split. destruct app; try discriminate. reflexivity.
  - destruct (callable app) eqn:Hcall; repeat split.
    destruct app; try reflexivity. discriminate.
Qed.

(** X11.  A class is never rejected: a class with [Gateway] among its
    bases becomes a Gateway handle although it is callable, every other
    class becomes an Application handle. *)
Theorem classify_class name mro :
  Application.classify (PyClass name mro) =
    if bool_decide (server_Gateway ∈ mro)
    then Ok (Application.IsGateway (Gateway.mk (PyClass name mro)))
    else Ok (Application.IsApplication (Application.mk (PyClass name mro))).
Proof.
  unfold Application.classify. cbn.
  destruct (bool_decide (server_Gateway ∈ mro)); reflexivity.
Qed.

(** X12.  Once the two path parts are bound, the body of [resolve]
    succeeds exactly when the module path is not empty, the module is
    loaded, it has the attribute ([application] when the attribute part is
    empty) and the attribute is callable; the handle then wraps that
    attribute, as a Gateway handle precisely for a Gateway subclass. *)
Theorem resolve_from_Ok_iff (modules : gmap string (gmap string pyobj))
    mod_path app_path h :
  Application.resolve_from modules mod_path app_path = Ok h <->
    exists m app,
      str_nonempty mod_path = true
      /\ modules !! mod_path = Some m
      /\ m !! (if str_nonempty app_path then app_path else "application")
         = Some app
      /\ callable app = true
      /\ h = if is_gateway_subclass app
             then Application.IsGateway (Gateway.mk app)
             else Application.IsApplication (Application.mk app).
Proof.
  unfold Application.resolve_from, import_module, getattr.
  split.
  - destruct (str_nonempty mod_path); [|discriminate].
    destruct (modules !! mod_path) as [m|]; [|discriminate]. cbn.
    destruct (m !! _) as [app|] eqn:Ha; [|discriminate]. cbn.
    rewrite classify_cases.
    destruct (is_gateway_subclass app) eqn:Hgw.
    + intros [= <-]. exists m, app. rewrite Hgw. repeat split; auto.
      destruct app; try discriminate. reflexivity.
    + destruct (callable app) eqn:Hc; [|discriminate].
      intros [= <-]. exists m, app. rewrite Hgw. repeat split; auto.
  - intros (m & app & -> & -> & Ha & Hc & ->). cbn. rewrite Ha. cbn.
    rewrite classify_cases, Hc. destruct (is_gateway_subclass app); reflexivity.
Qed.

(** ** More on the keyword sets *)

(** X13.  The keyword set of an application built by [Application.__init__]
    has no [None] value at all: the options are filtered and the callable
    is not [None]. *)
Theorem server_args_values_not_None app self
    (parsed_args : gmap string pyobj) k v :
  Application.__init__ app = Ok self ->
  Application.server_args self parsed_args !! k = Some v ->
  v <> PyNone.
Proof.
  unfold Application.__init__.
  destruct (callable app) eqn:Hc; [|discriminate]. cbn. intros [= <-].
  rewrite server_args_lookup. cbn.
  destruct (decide (k = "wsgi_app")).
  - intros [= <-]. destruct app; discriminate.
  - destruct (startswith "_" k); [discriminate|].
    destruct (parsed_args !! k) as [v'|]; [|discriminate].
    destruct (is_none v') eqn:Hn; [discriminate|].
    intros [= <-]. now apply is_none_false.
Qed.

Lemma server_args_values_not_None_witness :
  PyInt 8 <> PyNone.
Proof.
  apply (server_args_values_not_None (PyFunction "app")
           (Application.mk (PyFunction "app"))
           {[ "numthreads" := PyInt 8; "timeout" := PyNone ]} "numthreads");
    reflexivity.
Defined.

(** X14.  For [server_args] an option whose value is [None], or whose key
    begins with [_], is the same as an option that is not there. *)
Theorem server_args_ignores_entry self (parsed_args : gmap string pyobj) k v :
  is_none v || startswith "_" k = true ->
  Application.server_args self (<[ k := v ]> parsed_args)
    = Application.server_args self (delete k parsed_args).
Proof.
  intros Hkv. apply map_eq. intros j. rewrite !server_args_lookup.
  destruct (decide (j = "wsgi_app")); [reflexivity|].
  destruct (startswith "_" j) eqn:Hj; [reflexivity|].
  destruct (decide (k = j)) as [->|Hne].
  - rewrite lookup_insert_eq, lookup_delete_eq.
    rewrite Hj, orb_false_r in Hkv. now rewrite Hkv.
  - now rewrite lookup_insert_ne, lookup_delete_ne.
Qed.

Lemma server_args_ignores_entry_witness :
  Application.server_args (Application.mk (PyFunction "app"))
    (<[ "timeout" := PyNone ]> {[ "numthreads" := PyInt 8 ]})
  = Application.server_args (Application.mk (PyFunction "app"))
      (delete "timeout" {[ "numthreads" := PyInt 8 ]}).
Proof.
  apply (server_args_ignores_entry (Application.mk (PyFunction "app"))
           {[ "numthreads" := PyInt 8 ]} "timeout" PyNone).
  reflexivity.
Defined.

(** X15.  Neither strategy ever reaches its server constructor: for every
    handle and every namespace, [server] raises [TypeError]. *)
Theorem server_never_constructed h (parsed_args : gmap string pyobj) :
  exists msg, handle_server h parsed_args = Raise TypeError msg.
Proof.
  destruct h as [g|a]; cbn [handle_server].
  - rewrite Gateway_server_raises. eauto.
  - rewrite Application_server_raises. eauto.
Qed.

(** ** More on reading the command line *)

Section CommandLine.

Lemma find_arg_sound name e :
  find_arg name = Some e -> In e _arg_spec /\ arg e = name.
Proof.
  unfold find_arg. intros Hf. apply find_some in Hf as [Hin Heq].
  split; [exact Hin|]. now apply String.eqb_eq.
Qed.

(** The rows of the table, read off by their converter and their key. *)
Lemma arg_spec_rows e :
  In e _arg_spec ->
  (type e = type_os_chdir <-> arg e = "--chdir")
  /\ (type e = type_Application_resolve <-> arg e = "_wsgi_app")
  /\ (argparse_dest e = "bind_addr" -> type e = type_parse_wsgi_bind_addr)
  /\ (arg e = "--bind" -> argparse_dest e = "bind_addr")
  /\ (type e = type_os_chdir -> default e = None).
Proof.
  simpl. intros Hin.
  repeat (destruct Hin as [<-|Hin];
          [vm_compute; repeat split; congruence|]).
  destruct Hin.
Qed.

Lemma run_converter_frame c raw w r w' :
  run_converter c raw w = (r, w') ->
  directories w' = directories w /\ sys_modules w' = sys_modules w
  /\ (c <> type_os_chdir -> w' = w)
  /\ (c = type_os_chdir -> r = Ok PyNone -> cwd w' = raw).
Proof.
  destruct c; cbn; try (intros [= <- <-]; repeat split; congruence).
  unfold os_chdir. destruct (bool_decide (raw ∈ directories w));
    intros [= <- <-]; repeat split; congruence.
Qed.

Lemma run_converter_raise_class c raw w cls msg w' :
  run_converter c raw w = (Raise cls msg, w') ->
  cls = ValueError \/ (c = type_os_chdir /\ cls = OSError).
Proof.
  destruct c; cbn.
  - rewrite resolve_unpack_raises. cbn. intros [= <- _ _]. now left.
  - destruct (parse_wsgi_bind_addr raw) as [loc|c m] eqn:Hp; cbn; [discriminate|].
    intros [= <- _ _]. left. exact (parse_wsgi_bind_addr_raise_class _ _ _ Hp).
  - unfold os_chdir. destruct (bool_decide (raw ∈ directories w)); [discriminate|].
    intros [= <- _ _]. now right.
  - discriminate.
  - unfold py_int. destruct raw as [|a raw]; cbn; [intros [= <- _ _]; now left|].
    destruct (Ascii.eqb_spec a "-") as [->|]; [|destruct (Ascii.eqb_spec a "+") as [->|]].
    + cbn. destruct (str_nonempty raw && str_all is_digit raw);
        [destruct (within_str_digits raw); [discriminate|]|];
        intros [= <- _ _]; now left.
    + cbn. destruct (str_nonempty raw && str_all is_digit raw);
        [destruct (within_str_digits raw); [discriminate|]|];
        intros [= <- _ _]; now left.
    + assert (H : forall (A : Type) (x y z : A),
                (match String a raw with
                 | String "-" d => x | String "+" d => y | _ => z end) = z).
      { intros. destruct a as [[] [] [] [] [] [] [] []]; try reflexivity;
          congruence. }
      rewrite H.
      destruct (_ && _); [destruct (within_str_digits _); [discriminate|]|];
        intros [= <- _ _]; now left.
Qed.

End CommandLine.

Section ReadingItems.

Lemma parse_items_compose argv1 : forall argv2 (ns : gmap string pyobj) w,
  parse_items (argv1 ++ argv2) ns w =
    match parse_items argv1 ns w with
    | (Ok ns1, w1) => parse_items argv2 ns1 w1
    | failure => failure
    end.
Proof.
  induction argv1 as [|[name raw] rest IH]; intros argv2 ns w; [reflexivity|].
  cbn [app parse_items].
  destruct (find_arg name) as [e|]; [|reflexivity].
  destruct (run_converter (type e) raw w) as [[v|cls msg] w1]; [apply IH|].
  destruct (bool_decide (cls = TypeError) || bool_decide (cls = ValueError));
    reflexivity.
Qed.

Lemma given_cons name n raw (argv : list (string * string)) :
  given name ((n, raw) :: argv) = String.eqb name n || given name argv.
Proof. reflexivity. Qed.

Lemma parse_items_raise_class argv :
  forall (ns : gmap string pyobj) w cls msg w',
  parse_items argv ns w = (Raise cls msg, w') ->
  cls = SystemExit \/ (cls = OSError /\ given "--chdir" argv = true).
Proof.
  induction argv as [|[name raw] rest IH]; intros ns w cls msg w';
    cbn [parse_items]; [discriminate|].
  rewrite given_cons.
  destruct (find_arg name) as [e|] eqn:He; [|intros [= <- _ _]; now left].
  destruct (find_arg_sound _ _ He) as [Hin Hname].
  destruct (run_converter (type e) raw w) as [[v|c m] w1] eqn:Hrun.
  - intros H. destruct (IH _ _ _ _ _ H) as [?|[? Hg]]; [now left|right].
    split; [assumption|]. rewrite Hg. apply orb_true_r.
  - destruct (run_converter_raise_class _ _ _ _ _ _ Hrun) as [->|[Ht ->]]; cbn.
    + intros [= <- _ _]. now left.
    + intros [= <- _ _]. right. split; [reflexivity|].
      apply (proj1 (arg_spec_rows e Hin)) in Ht. rewrite <- Hname, Ht. reflexivity.
Qed.

Lemma parse_items_world argv :
  forall (ns : gmap string pyobj) w r w',
  parse_items argv ns w = (r, w') ->
  directories w' = directories w /\ sys_modules w' = sys_modules w
  /\ (given "--chdir" argv = false -> w' = w).
Proof.
  induction argv as [|[name raw] rest IH]; intros ns w r w';
    cbn [parse_items]; [intros [= <- <-]; auto|].
  rewrite given_cons.
  destruct (find_arg name) as [e|] eqn:He; [|intros [= <- <-]; auto].
  destruct (find_arg_sound _ _ He) as [Hin Hname].
  destruct (run_converter (type e) raw w) as [r1 w1] eqn:Hrun.
  destruct (run_converter_frame _ _ _ _ _ Hrun) as (Hd & Hm & Hw & _).
  assert (Hsame : (String.eqb "--chdir" name || given "--chdir" rest) = false
                  -> w1 = w).
  { intros Hg. apply orb_false_iff in Hg as [Hg _]. apply Hw.
    intros Ht. apply (proj1 (arg_spec_rows e Hin)) in Ht.
    rewrite <- Hname, Ht in Hg. discriminate. }
  destruct r1 as [v|c m].
  - intros H. destruct (IH _ _ _ _ H) as (Hd' & Hm' & Hw').
    repeat split; [congruence | congruence |].
    intros Hg. rewrite Hw' by (now apply orb_false_iff in Hg). now apply Hsame.
  - destruct (bool_decide (c = TypeError) || bool_decide (c = ValueError));
      intros [= <- <-]; auto.
Qed.


Lemma parse_items_positional argv :
  forall (ns : gmap string pyobj) w,
  given "_wsgi_app" argv = true ->
  exists cls msg w', parse_items argv ns w = (Raise cls msg, w').
Proof.
  induction argv as [|[name raw] rest IH]; intros ns w;
    cbn [parse_items]; [discriminate|].
  rewrite given_cons.
  destruct (find_arg name) as [e|] eqn:He; [|eauto].
  destruct (find_arg_sound _ _ He) as [Hin Hname].
  destruct (run_converter (type e) raw w) as [[v|c m] w1] eqn:Hrun.
  - intros Hg. apply orb_true_iff in Hg as [Hg|Hg]; [|now apply IH].
    apply String.eqb_eq in Hg.
    assert (Ht : type e = type_Application_resolve)
      by (apply (proj1 (proj2 (arg_spec_rows e Hin))); congruence).
    rewrite Ht in Hrun. cbn in Hrun. rewrite resolve_unpack_raises in Hrun.
    discriminate.
  - intros _.
    destruct (bool_decide (c = TypeError) || bool_decide (c = ValueError)); eauto.
Qed.

Lemma parse_items_untouched argv :
  forall (ns ns' : gmap string pyobj) w w' k,
  parse_items argv ns w = (Ok ns', w') ->
  k ∉ item_dests argv ->
  ns' !! k = ns !! k.
Proof.
  induction argv as [|[name raw] rest IH]; intros ns ns' w w' k;
    cbn [parse_items]; [intros [= <- _]; reflexivity|].
  unfold item_dests. cbn [omap list_omap fst].
  destruct (find_arg name) as [e|] eqn:He; [|discriminate]. cbn.
  destruct (run_converter (type e) raw w) as [[v|c m] w1] eqn:Hrun.
  - intros H Hk. apply not_elem_of_cons in Hk as [Hne Hk].
    rewrite (IH _ _ _ _ _ H Hk). now apply lookup_insert_ne.
  - destruct (bool_decide (c = TypeError) || bool_decide (c = ValueError));
      discriminate.
Qed.

Lemma initial_namespace_values k v :
  initial_namespace !! k = Some v ->
  v = PyNone \/ (k = "bind_addr" /\ v = PyStr "127.0.0.1:8000").
Proof.
  unfold initial_namespace. intros H. apply elem_of_list_to_map_2 in H.
  apply list_elem_of_In in H. simpl in H.
  repeat (destruct H as [[= <- <-]|H]; [auto|]).
  destruct H.
Qed.

End ReadingItems.

Section FilledNamespace.


(** Converting the defaults touches the [--bind] row only, and cannot
    fail there. *)
Lemma read_arguments_cases argv w :
  match parse_items argv initial_namespace w with
  | (Ok ns, w') =>
      read_arguments argv w =
        (Ok (if given "--bind" argv then ns
             else <[ "bind_addr" :=
                       PyBindLocation
                         (BindLocation_network (Some "127.0.0.1") (Some 8000)) ]>
                    ns),
         w')
  | failure => read_arguments argv w = failure
  end.
Proof.
  unfold read_arguments.
  destruct (parse_items argv initial_namespace w) as [[ns|cls msg] w'];
    [|reflexivity].
  cbn. destruct (given "--bind" argv); reflexivity.
Qed.

End FilledNamespace.

(** X16.  Reading the command line fails in two ways only: with a usage
    error ([SystemExit]: an unknown argument, or a converter that raised
    [TypeError] or [ValueError]), or with the [OSError] of a [--chdir] to
    a directory that does not exist. *)
Theorem parse_items_failures argv (ns : gmap string pyobj) w cls msg w' :
  parse_items argv ns w = (Raise cls msg, w') ->
  cls = SystemExit \/ (cls = OSError /\ given "--chdir" argv = true).
Proof. apply parse_items_raise_class. Qed.

Lemma parse_items_failures_witness :
  OSError = SystemExit
  \/ (OSError = OSError
      /\ given "--chdir" [("--threads", "8"); ("--chdir", "/nowhere")] = true).
Proof.
  apply (parse_items_failures
           [("--threads", "8"); ("--chdir", "/nowhere")] initial_namespace
           (mkWorld "/" ["/srv"] pkg_modules) OSError
           "No such file or directory: /nowhere"
           (mkWorld "/" ["/srv"] pkg_modules)).
  reflexivity.
Defined.

(** X17.  Whatever the outcome, reading the command line leaves the set
    of directories and the loaded modules as they were, and without a
    [--chdir] item it leaves the whole process state unchanged. *)
Theorem parse_items_world_frame argv (ns : gmap string pyobj) w r w' :
  parse_items argv ns w = (r, w') ->
  directories w' = directories w /\ sys_modules w' = sys_modules w
  /\ (given "--chdir" argv = false -> w' = w).
Proof. apply parse_items_world. Qed.

Lemma parse_items_world_frame_witness :
  directories (mkWorld "/" ["/srv"] pkg_modules) = ["/srv"]
  /\ sys_modules (mkWorld "/" ["/srv"] pkg_modules) = pkg_modules
  /\ (given "--chdir" [("--threads", "x")] = false ->
      mkWorld "/" ["/srv"] pkg_modules = mkWorld "/" ["/srv"] pkg_modules).
Proof.
  apply (parse_items_world_frame [("--threads", "x")] initial_namespace
           (mkWorld "/" ["/srv"] pkg_modules)
           (Raise SystemExit "invalid value: x")).
  reflexivity.
Defined.



(** X19.  A command line that names the application module is always
    rejected, whatever the loaded modules are: reading it ends in an
    exception. *)
Theorem positional_always_rejected argv (ns : gmap string pyobj) w :
  given "_wsgi_app" argv = true ->
  exists cls msg w', parse_items argv ns w = (Raise cls msg, w').
Proof. apply parse_items_positional. Qed.

Lemma positional_always_rejected_witness :
  exists cls msg w',
    parse_items [("_wsgi_app", "pkg.mod")] initial_namespace
                (mkWorld "/" [] pkg_modules)
    = (Raise cls msg, w').
Proof.
  apply (positional_always_rejected [("_wsgi_app", "pkg.mod")]). reflexivity.
Defined.

(** X20.  Once the namespace is filled, an option that no item of the
    command line stores under is not in the keyword set of [server_args];
    the exceptions are [bind_addr], which has a default, and [wsgi_app]. *)
Theorem unsupplied_options_not_forwarded argv w (ns : gmap string pyobj) w'
    self k :
  read_arguments argv w = (Ok ns, w') ->
  k ∉ item_dests argv ->
  k <> "bind_addr" -> k <> "wsgi_app" ->
  Application.server_args self ns !! k = None.
Proof.
  intros Hread Hk Hb Hw.
  pose proof (read_arguments_cases argv w) as Hc.
  destruct (parse_items argv initial_namespace w) as [[ns0|c m] w0] eqn:Hp;
    [|congruence].
  assert (Hk0 : ns0 !! k = initial_namespace !! k)
    by exact (parse_items_untouched _ _ _ _ _ _ Hp Hk).
  assert (Hns : ns !! k = initial_namespace !! k).
  { rewrite Hread in Hc. injection Hc as -> _.
    destruct (given "--bind" argv); [exact Hk0|].
    now rewrite lookup_insert_ne. }
  rewrite server_args_lookup, Hns.
  destruct (decide (k = "wsgi_app")); [congruence|].
  destruct (startswith "_" k); [reflexivity|].
  destruct (initial_namespace !! k) as [v|] eqn:Hv; [|reflexivity].
  destruct (initial_namespace_values _ _ Hv) as [->|[? _]];
    [reflexivity | congruence].
Qed.

Lemma unsupplied_options_not_forwarded_witness :
  Application.server_args (Application.mk (PyFunction "app"))
    (<[ "bind_addr" :=
          PyBindLocation (BindLocation_network (Some "127.0.0.1") (Some 8000)) ]>
       (<[ "numthreads" := PyInt 8 ]> initial_namespace))
    !! "timeout" = None.
Proof.
  apply (unsupplied_options_not_forwarded
           [("--threads", "8")] (mkWorld "/" [] pkg_modules) _
           (mkWorld "/" [] pkg_modules)).
  - reflexivity.
  - vm_compute. intros H. apply list_elem_of_In in H. simpl in H.
    destruct H as [H|[]]. discriminate H.
  - discriminate.
  - discriminate.
Defined.



(** X22.  [main] never starts a server.  For every command line and
    every process state it ends in an exception - a usage error, or the
    [OSError] of a failed [--chdir] - and [sys.path] is left as it was. *)
Theorem main_never_starts argv w sys_path :
  exists cls msg w',
    main argv w sys_path = (Raise cls msg, w', sys_path)
    /\ (cls = SystemExit \/ cls = OSError).
Proof.
  unfold main, parse_args.
  pose proof (read_arguments_cases argv w) as Hc.
  destruct (parse_items argv initial_namespace w) as [[ns0|c m] w0] eqn:Hp.
  - rewrite Hc.
    destruct (given "_wsgi_app" argv) eqn:Hg.
    + destruct (parse_items_positional argv initial_namespace w Hg)
        as (c & m & w1 & Hr). congruence.
    + eauto 6.
  - rewrite Hc. exists c, m, w0. split; [reflexivity|].
    destruct (parse_items_raise_class _ _ _ _ _ _ Hp) as [?|[? _]]; auto.
Qed.

(** ** Relative paths *)

Section RelativePaths.

Lemma take_netloc_before_slash name rest :
  str_all authority_char name = true ->
  urllib.take_netloc (name ++ String "/" rest) = name.
Proof.
  induction name as [|a name IH]; [reflexivity|].
  cbn [str_all]. rewrite andb_true_iff. intros [Ha Hn].
  change (String a name ++ String "/" rest)
    with (String a (name ++ String "/" rest)).
  cbn [urllib.take_netloc].
  assert (Hd : urllib.is_netloc_delim a = false).
  { unfold urllib.is_netloc_delim.
    destruct (Ascii.eqb_spec a "/") as [->|_]; [discriminate Ha|].
    destruct (Ascii.eqb_spec a "?") as [->|_]; [discriminate Ha|].
    destruct (Ascii.eqb_spec a "#") as [->|_]; [discriminate Ha|].
    reflexivity. }
  now rewrite Hd, IH.
Qed.

Lemma bare_host_parse name :
  valid_hostname name = true ->
  unbalanced_brackets name = false
  /\ urllib.hostname (urllib.mkParseResult name) = Some (lower name)
  /\ urllib.port (urllib.mkParseResult name) = Ok None.
Proof.
  unfold valid_hostname. rewrite andb_true_iff. intros [Hne Hh].
  assert (Hs : str_all authority_char name = true).
  { apply (str_all_impl hostname_char); [|exact Hh].
    intros a Ha. unfold authority_char. now rewrite Ha. }
  assert (Hi : urllib._hostinfo (urllib.mkParseResult name) = (name, None)).
  { unfold urllib._hostinfo. simpl urllib.netloc.
    rewrite rpartition_absent
      by (apply (authority_no_delims _ "@"); [reflexivity | exact Hs]).
    rewrite partition_absent
      by (apply (authority_no_delims _ "["); [reflexivity | exact Hs]).
    simpl str_nonempty. cbv iota.
    rewrite partition_absent
      by (apply (str_all_not_mem hostname_char); [reflexivity | exact Hh]).
    reflexivity. }
  repeat split.
  - unfold unbalanced_brackets.
    rewrite (authority_no_delims name "["), (authority_no_delims name "]")
      by (reflexivity || exact Hs).
    reflexivity.
  - unfold urllib.hostname. rewrite Hi. simpl fst. rewrite Hne.
    rewrite partition_absent
      by (apply (str_all_not_mem hostname_char); [reflexivity | exact Hh]).
    f_equal. change ("" ++ "") with "". apply str_app_empty_r.
  - unfold urllib.port. now rewrite Hi.
Qed.

End RelativePaths.

(** X23.  A relative path whose first component is made of letters,
    digits, hyphens and dots is not read as a socket file: the component
    before the first [/] is taken as a host name, the rest is dropped, and
    the location has no effective address. *)
Theorem relative_path_is_network name rest :
  valid_hostname name = true ->
  parse_wsgi_bind_addr (name ++ String "/" rest)
    = Ok (BindLocation_network (Some (lower name)) None)
  /\ bind_addr (BindLocation_network (Some (lower name)) None) = PyNone.
Proof.
  intros Hn. split; [|reflexivity].
  destruct (bare_host_parse name Hn) as (Hb & Hh & Hp).
  assert (Hs : str_all authority_char name = true).
  { unfold valid_hostname in Hn. apply andb_true_iff in Hn as [_ Hn].
    apply (str_all_impl hostname_char); [|exact Hn].
    intros a Ha. unfold authority_char. now rewrite Ha. }
  assert (Hu : urllib.urlparse ("//" ++ name ++ String "/" rest)
               = Ok (urllib.mkParseResult name)).
  { rewrite urlparse_slashes, (take_netloc_before_slash name rest Hs).
    now rewrite Hb. }
  rewrite (parse_wsgi_bind_addr_network _ _ None Hu Hp); now rewrite Hh.
Qed.

Lemma relative_path_is_network_witness :
  parse_wsgi_bind_addr "run/app.sock"
    = Ok (BindLocation_network (Some "run") None)
  /\ bind_addr (BindLocation_network (Some "run") None) = PyNone.
Proof.
  apply (relative_path_is_network "run" "app.sock"). reflexivity.
Defined.
